(** * AI code assistant: a shallow embedding of [code_assistant.py]

    The module is a thin client of a remote text-generation service with one
    local static check, the detection of bare [except:] clauses by a walk
    over the syntax tree.  Python's own parser ([ast.parse]) and the remote
    call ([openai.ChatCompletion.create]) are not code of the module; they
    are variables of the development.  Everything else is translated from
    the source, method by method. *)

From Stdlib Require Import List String Ascii ZArith QArith Lia Permutation Bool Arith.
From Stdlib Require Import DecimalString.
From Equations Require Import Equations.
Import ListNotations.
Close Scope Q_scope.
Open Scope string_scope.
Set Warnings "-register-all".

(** ** Python values the module handles *)

(** [x if x is not None else d], the value of an omitted keyword argument. *)
Definition default {A : Type} (d : A) (o : option A) : A :=
  match o with Some a => a | None => d end.

(** Exceptions, all instances of [Exception].  [SyntaxError] carries the two
    attributes the module reads; any other class is kept by name. *)
Inductive exception : Type :=
| SyntaxError (lineno : option Z) (msg : string)
| OtherException (cls : string) (text : string).

Definition is_SyntaxError (e : exception) : bool :=
  match e with SyntaxError _ _ => true | OtherException _ _ => false end.

(** Every modelled exception derives from [Exception]. *)
Definition is_Exception (e : exception) : bool := true.

Inductive outcome (A : Type) : Type :=
| Returns (a : A)
| Raises (e : exception).
Arguments Returns {A} a.
Arguments Raises {A} e.

(** [sys.int_max_str_digits] at its default: the most digits [str] writes
    for an [int]. *)
Definition int_max_str_digits : Z := 4300.

(** [str(n)] for a Python [int], which is also what an f-string does with
    it: the decimal form, or [ValueError] when [n] has more digits than the
    limit. *)
Definition str_int (n : Z) : outcome string :=
  if (Z.abs n <? 10 ^ int_max_str_digits)%Z
  then Returns (NilZero.string_of_int (Z.to_int n))
  else Raises (OtherException "ValueError"
                 "Exceeds the limit (4300 digits) for integer string conversion").

(** ** Data classes *)

Record CodeSuggestion : Type := mkCodeSuggestion {
  code : string;
  confidence : Q;
  explanation : string;
  category : string
}.

Record BugReport : Type := mkBugReport {
  line_number : Z;
  severity : string;
  description : string;
  fix_suggestion : option string
}.

(** ** Syntax trees, as far as [ast.walk] and the check look at them

    [ExceptHandler] has the fields [type], [name] and [body]; every other
    node class is kept by name with its child nodes in field order. *)
Inductive AST : Type :=
| ExceptHandler (lineno : Z) (type : option AST) (name : option string)
                (body : list AST)
| Node (cls : string) (children : list AST).

(** [ast.iter_child_nodes]: the direct child nodes, in field order. *)
Definition iter_child_nodes (node : AST) : list AST :=
  match node with
  | ExceptHandler _ ty _ body =>
      match ty with Some t => [t] | None => [] end ++ body
  | Node _ children => children
  end.

(** The number of nodes of a tree and of a queue of trees: what the walk
    still has to visit. *)
Fixpoint size (t : AST) : nat :=
  match t with
  | ExceptHandler _ ty _ body =>
      S (match ty with Some a => size a | None => 0 end
         + list_sum (map size body))
  | Node _ children => S (list_sum (map size children))
  end.

Definition forest_size (ts : list AST) : nat := list_sum (map size ts).

(** [ast.walk]: a queue of nodes still to visit; the node at the front is
    yielded and its children join the back. *)
Equations? walk_todo (todo : list AST) : list AST by wf (forest_size todo) lt :=
  walk_todo [] := [];
  walk_todo (node :: rest) := node :: walk_todo (rest ++ iter_child_nodes node).
Proof.
  unfold forest_size. rewrite map_app, list_sum_app. cbn [map list_sum].
  destruct node as [lineno [ty|] name body | cls children];
    cbn [iter_child_nodes app map];
    repeat match goal with
           | |- context [list_sum (?x :: ?l)] =>
               change (list_sum (x :: l)) with (x + list_sum l)
           end;
    cbn [size]; lia.
Qed.

Definition walk (node : AST) : list AST := walk_todo [node].

(** The nodes of a tree by structural recursion (parents first, fields left
    to right): the reference enumeration the walk is compared with. *)
Fixpoint nodes (t : AST) : list AST :=
  t :: match t with
       | ExceptHandler _ ty _ body =>
           match ty with Some a => nodes a | None => [] end
           ++ flat_map nodes body
       | Node _ children => flat_map nodes children
       end.

(** ** The process and its effects

    An assistant object holds [api_key] and [model].  The [openai] module
    holds one credential for the whole process, [openai.api_key].  What a
    call does besides returning is recorded: each request handed to the
    remote service, and each line printed. *)

Record AICodeAssistant : Type := mkAssistant {
  api_key : string;
  model : string
}.

(** The keyword arguments of [openai.ChatCompletion.create]. *)
Record request : Type := mkRequest {
  req_model : string;
  req_messages : list (string * string);   (* role, content *)
  req_temperature : Q;
  req_max_tokens : Z
}.

(** A response, reduced to [choices[i].message.content]. *)
Definition response : Type := list string.

Inductive event : Type :=
| Call (credential : option string) (req : request)
| Print (prefix : string) (e : exception).   (* print(f"<prefix>{e}") *)

Record process : Type := mkProcess {
  openai_api_key : option string;
  effects : list event
}.

(** A computation reads and may write the object and the process, and
    returns or raises. *)
Definition M (A : Type) : Type :=
  AICodeAssistant -> process -> outcome A * AICodeAssistant * process.

Definition ret {A : Type} (a : A) : M A := fun self p => (Returns a, self, p).

Definition raise {A : Type} (e : exception) : M A :=
  fun self p => (Raises e, self, p).

Definition bind {A B : Type} (m : M A) (f : A -> M B) : M B :=
  fun self p =>
    match m self p with
    | (Returns a, self', p') => f a self' p'
    | (Raises e, self', p') => (Raises e, self', p')
    end.

(** [try: m / except <class> as e: handler e]; an exception of another
    class passes through. *)
Definition try_except {A : Type} (m : M A) (catches : exception -> bool)
    (handler : exception -> M A) : M A :=
  fun self p =>
    match m self p with
    | (Returns a, self', p') => (Returns a, self', p')
    | (Raises e, self', p') =>
        if catches e then handler e self' p' else (Raises e, self', p')
    end.

Definition lift {A : Type} (o : outcome A) : M A := fun self p => (o, self, p).

Definition get_self : M AICodeAssistant := fun self p => (Returns self, self, p).

Definition get_openai_api_key : M (option string) :=
  fun self p => (Returns (openai_api_key p), self, p).

Definition emit (ev : event) : M unit :=
  fun self p =>
    (Returns tt, self,
     {| openai_api_key := openai_api_key p; effects := effects p ++ [ev] |}).

Definition print (prefix : string) (e : exception) : M unit :=
  emit (Print prefix e).

Declare Scope py_scope.
Delimit Scope py_scope with py.
Notation "x <- m ;; k" := (bind m (fun x => k))
  (at level 61, m at next level, right associativity) : py_scope.
Notation "m ;;; k" := (bind m (fun _ => k))
  (at level 61, right associativity) : py_scope.
Notation "'try' m 'except' c 'as' e '=>' h" :=
  (try_except m c (fun e => h))
  (at level 62, e name, m at level 61, h at level 61) : py_scope.

Definition result {A : Type} (r : outcome A * AICodeAssistant * process) :
  outcome A := fst (fst r).
Definition self_after {A : Type} (r : outcome A * AICodeAssistant * process) :
  AICodeAssistant := snd (fst r).
Definition process_after {A : Type}
    (r : outcome A * AICodeAssistant * process) : process := snd r.

(** [AICodeAssistant.__init__]: fills the two fields of the new object and
    writes the credential to the process-wide [openai.api_key]. *)
Definition __init__ (api_key : string) (model : option string) (p : process) :
    AICodeAssistant * process :=
  let model := default "gpt-4" model in
  ({| api_key := api_key; model := model |},
   {| openai_api_key := Some api_key; effects := effects p |}).

(** ** Regular expressions, as far as [_extract_code] uses them

    A backtracking matcher in continuation style: the continuation receives
    the rest of the text and the groups captured so far, and a [None] from
    it makes the matcher try its next alternative, as Python's [re] does. *)

Inductive regex : Type :=
| Lit (s : string)          (* literal characters *)
| Cat (r1 r2 : regex)       (* r1 r2 *)
| Opt (r : regex)           (* (?:r)?  greedy *)
| AnyLazy                   (* .*?  with re.DOTALL *)
| Group (r : regex).        (* (r) *)

(** The rest of [s] after the prefix [p], when [s] starts with [p]. *)
Fixpoint strip_prefix (p s : string) : option string :=
  match p, s with
  | EmptyString, _ => Some s
  | String a p', String b s' =>
      if Ascii.eqb a b then strip_prefix p' s' else None
  | String _ _, EmptyString => None
  end.

(** The first suffix of [s], longest first, that [k] accepts. *)
Fixpoint first_suffix {A : Type} (k : string -> option A) (s : string) :
    option A :=
  match k s with
  | Some a => Some a
  | None =>
      match s with
      | EmptyString => None
      | String _ s' => first_suffix k s'
      end
  end.

(** What was read between the text [s] and its suffix [s']. *)
Definition consumed (s s' : string) : string :=
  substring 0 (String.length s - String.length s') s.

Fixpoint re_match {A : Type} (r : regex) (s : string) (groups : list string)
    (k : string -> list string -> option A) : option A :=
  match r with
  | Lit p =>
      match strip_prefix p s with
      | Some s' => k s' groups
      | None => None
      end
  | Cat r1 r2 => re_match r1 s groups (fun s' gs => re_match r2 s' gs k)
  | Opt r' =>
      match re_match r' s groups k with
      | Some a => Some a
      | None => k s groups
      end
  | AnyLazy => first_suffix (fun s' => k s' groups) s
  | Group r' =>
      re_match r' s groups (fun s' gs => k s' (gs ++ [consumed s s'])%list)
  end.

(** One match: where it starts, its groups, and the text after it. *)
Record re_found : Type := mkFound {
  found_at : string;
  found_groups : list string;
  found_rest : string
}.

(** [pattern.search]: the leftmost position at which the pattern matches. *)
Definition re_search (r : regex) (s : string) : option re_found :=
  first_suffix
    (fun s0 => re_match r s0 [] (fun rest gs => Some (mkFound s0 gs rest))) s.

(** One search of the scan of [re.findall]: at the start of [s], where an
    empty match is refused when the match before was empty
    ([must_advance]), then at each later position. *)
Definition re_search_from (r : regex) (must_advance : bool) (s : string) :
    option re_found :=
  match re_match r s []
          (fun rest gs =>
             if must_advance
                && Nat.eqb (String.length rest) (String.length s)
             then None
             else Some (mkFound s gs rest)) with
  | Some m => Some m
  | None =>
      match s with
      | EmptyString => None
      | String _ s' => re_search r s'
      end
  end.

(** [re.findall] for a pattern with one group: the group of every match,
    scanning on from the end of each match; after an empty match the next
    one must advance.  A round either shortens the text or follows an empty
    match, so [2 * length s + 2] rounds are enough. *)
Fixpoint findall_rounds (rounds : nat) (r : regex) (must_advance : bool)
    (s : string) : list string :=
  match rounds with
  | O => []
  | S n =>
      match re_search_from r must_advance s with
      | None => []
      | Some m =>
          nth 0 (found_groups m) ""
          :: findall_rounds n r
               (Nat.eqb (String.length (found_rest m))
                        (String.length (found_at m)))
               (found_rest m)
      end
  end.

Definition findall (r : regex) (s : string) : list string :=
  findall_rounds (2 * String.length s + 2) r false s.

Definition newline : string := String (ascii_of_nat 10) EmptyString.

(** [r'```(?:python)?\n(.*?)\n```'] *)
Definition code_pattern : regex :=
  Cat (Lit "```")
      (Cat (Opt (Lit "python"))
           (Cat (Lit newline) (Cat (Group AnyLazy) (Lit (newline ++ "```"))))).

(** [AICodeAssistant._extract_code] *)
Definition _extract_code (text : string) : string :=
  let matches := findall code_pattern text in
  match matches with
  | m :: _ => m
  | [] => text
  end.

(** ** The assistant's methods *)

Section Assistant.

(** [ast.parse]: the tree of a snippet, or the exception raised. *)
Variable ast_parse : string -> outcome AST.

(** [openai.ChatCompletion.create]: what the remote service answers to a
    request sent under the process-wide credential. *)
Variable ChatCompletion_create : option string -> request -> outcome response.

Local Open Scope py_scope.

(** The call every capability makes: model from the object, credential
    from the [openai] module, a system and a user message. *)
Definition create (system prompt : string) (temperature : Q)
    (max_tokens : Z) : M response :=
  self <- get_self ;;
  credential <- get_openai_api_key ;;
  let req := {| req_model := model self;
                req_messages := [("system", system); ("user", prompt)];
                req_temperature := temperature;
                req_max_tokens := max_tokens |} in
  emit (Call credential req) ;;;
  lift (ChatCompletion_create credential req).

(** [response.choices[0].message.content] *)
Definition first_content (r : response) : M string :=
  match r with
  | content :: _ => ret content
  | [] => raise (OtherException "IndexError" "list index out of range")
  end.

(** [_parse_suggestions] *)
Definition _parse_suggestions (response_text : string) :
    list CodeSuggestion := [].

Definition complete_code (code_context : string)
    (max_suggestions : option Z) : M (list CodeSuggestion) :=
  let max_suggestions := default 3%Z max_suggestions in
  (* the f-string is evaluated before the [try] is entered *)
  shown <- lift (str_int max_suggestions) ;;
  let prompt :=
    "Complete the following code with best practices:" ++ newline
    ++ "        " ++ newline
    ++ code_context ++ newline
    ++ newline
    ++ "Provide " ++ shown
    ++ " different completion suggestions." in
  try (response <- create "You are an expert programming assistant."
                          prompt (7 # 10)%Q 500%Z ;;
       content <- first_content response ;;
       let suggestions := _parse_suggestions content in
       ret suggestions)
  except is_Exception as e =>
    (print "Error generating code completion: " e ;;; ret []).

(** The report for a bare handler at line [lineno]. *)
Definition bare_except_report (lineno : Z) : BugReport :=
  {| line_number := lineno;
     severity := "MEDIUM";
     description := "Bare except clause - specify exception type";
     fix_suggestion := Some "except Exception as e:" |}.

(** [isinstance(node, ast.ExceptHandler) and node.type is None] *)
Definition is_bare_except (node : AST) : bool :=
  match node with
  | ExceptHandler _ None _ _ => true
  | _ => false
  end.

(** [node.lineno], read only where the node is a handler. *)
Definition node_lineno (node : AST) : Z :=
  match node with
  | ExceptHandler lineno _ _ _ => lineno
  | Node _ _ => 0%Z
  end.

(** The body of the loop of [_ast_analysis], run over the nodes in the
    order given, appending to [bugs]. *)
Definition check_nodes (order : list AST) : list BugReport :=
  fold_left
    (fun bugs node =>
       if is_bare_except node
       then (bugs ++ [bare_except_report (node_lineno node)])%list
       else bugs)
    order [].

(** [_ast_analysis]: the loop runs over [ast.walk(tree)]. *)
Definition _ast_analysis (tree : AST) : list BugReport :=
  check_nodes (walk tree).

(** [_ai_bug_detection]: the answer of the service is not parsed. *)
Definition _ai_bug_detection (code : string) : M (list BugReport) :=
  let prompt :=
    "Analyze this code for bugs, security issues, and problems:" ++ newline
    ++ "        " ++ newline
    ++ code ++ newline
    ++ newline
    ++ "List any issues found with severity and line numbers." in
  try (response <- create "You are a security and code quality expert."
                          prompt (3 # 10)%Q 500%Z ;;
       ret [])
  except is_Exception as e =>
    (print "Error in AI bug detection: " e ;;; ret []).

(** [e.lineno or 0] *)
Definition lineno_or_0 (lineno : option Z) : Z :=
  match lineno with
  | Some l => if Z.eqb l 0 then 0%Z else l
  | None => 0%Z
  end.

Definition analyze_code (code : string) : M (list BugReport) :=
  let bugs : list BugReport := [] in
  bugs <- (try (tree <- lift (ast_parse code) ;;
                ret (bugs ++ _ast_analysis tree)%list)
           except is_SyntaxError as e =>
             match e with
             | SyntaxError lineno msg =>
                 ret (bugs ++ [ {| line_number := lineno_or_0 lineno;
                                   severity := "HIGH";
                                   description := "Syntax Error: " ++ msg;
                                   fix_suggestion := None |} ])%list
             | OtherException _ _ => raise e
             end) ;;
  ai <- _ai_bug_detection code ;;
  ret (bugs ++ ai)%list.

Definition refactor (code : string) (style : option string) : M string :=
  let style := default "clean_code" style in
  let prompt :=
    "Refactor this code following " ++ style ++ " principles:" ++ newline
    ++ "        " ++ newline
    ++ code ++ newline
    ++ newline
    ++ "Provide the refactored version with improvements." in
  try (response <- create "You are a code refactoring expert."
                          prompt (5 # 10)%Q 1000%Z ;;
       content <- first_content response ;;
       let refactored_code := _extract_code content in
       ret refactored_code)
  except is_Exception as e =>
    (print "Error refactoring code: " e ;;; ret code).

Definition generate_documentation (code : string) : M string :=
  let prompt :=
    "Generate comprehensive documentation for this code:" ++ newline
    ++ "        " ++ newline
    ++ code ++ newline
    ++ newline
    ++ "Include:" ++ newline
    ++ "- Overview" ++ newline
    ++ "- Parameters/Arguments" ++ newline
    ++ "- Return values" ++ newline
    ++ "- Usage examples" ++ newline
    ++ "- Edge cases" in
  try (response <- create "You are a technical documentation expert."
                          prompt (6 # 10)%Q 800%Z ;;
       first_content response)
  except is_Exception as e =>
    (print "Error generating documentation: " e ;;; ret "").

Definition explain_code (code : string) : M string :=
  let prompt :=
    "Explain this code in simple terms:" ++ newline
    ++ "        " ++ newline
    ++ code ++ newline
    ++ newline
    ++ "Provide a clear, beginner-friendly explanation." in
  try (response <- create "You are a patient coding instructor."
                          prompt (6 # 10)%Q 500%Z ;;
       first_content response)
  except is_Exception as e =>
    (print "Error explaining code: " e ;;; ret "").

End Assistant.

(** ** Reference notions the properties are stated with *)

(** The bare handlers of a tree and their lines, by the structural
    enumeration of its nodes. *)
Definition bare_clauses (t : AST) : list AST := filter is_bare_except (nodes t).

Definition bare_lines (t : AST) : list Z := map node_lineno (bare_clauses t).

(** A computation that returns a value from every object and process. *)
Definition total {A : Type} (m : M A) : Prop :=
  forall self p, exists v, result (m self p) = Returns v.

(** A computation that leaves the object and the process-wide credential
    as it found them. *)
Definition preserves_configuration {A : Type} (m : M A) : Prop :=
  forall self p,
    self_after (m self p) = self /\
    openai_api_key (process_after (m self p)) = openai_api_key p.

(** The request a capability builds from the object. *)
Definition the_request (self : AICodeAssistant) (system prompt : string)
    (temperature : Q) (max_tokens : Z) : request :=
  {| req_model := model self;
     req_messages := [("system", system); ("user", prompt)];
     req_temperature := temperature;
     req_max_tokens := max_tokens |}.

(** The process after one request under its credential, and [more]. *)
Definition called (p : process) (req : request) (more : list event) : process :=
  {| openai_api_key := openai_api_key p;
     effects := (effects p ++ [Call (openai_api_key p) req]) ++ more |}.

(** What a capability of the form [try: response = create(...); return
    f(response.choices[0].message.content) / except Exception as e:
    print(...); return fallback] comes to: one request with the model of the
    object; the value read from the first choice, or the fallback and one
    printed line when the call fails or the response has no choice. *)
Definition guarded_run {A : Type}
    (ChatCompletion_create : option string -> request -> outcome response)
    (prefix : string) (on_success : string -> A) (fallback : A)
    (self : AICodeAssistant) (p : process)
    (r : outcome A * AICodeAssistant * process) : Prop :=
  exists req,
    req_model req = model self /\
    match ChatCompletion_create (openai_api_key p) req with
    | Returns (content :: _) =>
        r = (Returns (on_success content), self, called p req [])
    | Returns [] =>
        r = (Returns fallback, self,
             called p req
               [Print prefix
                  (OtherException "IndexError" "list index out of range")])
    | Raises e => r = (Returns fallback, self, called p req [Print prefix e])
    end.

(** What [analyze_code] makes of the parser's outcome. *)
Definition static_outcome (o : outcome AST) : outcome (list BugReport) :=
  match o with
  | Returns tree => Returns (_ast_analysis tree)
  | Raises (SyntaxError lineno msg) =>
      Returns [ {| line_number := lineno_or_0 lineno;
                   severity := "HIGH";
                   description := "Syntax Error: " ++ msg;
                   fix_suggestion := None |} ]
  | Raises (OtherException cls text) => Raises (OtherException cls text)
  end.

(** The description as the specification quotes it, with an em dash
    (U+2014, three bytes in UTF-8) where the source has a hyphen. *)
Definition em_dash : string :=
  String (ascii_of_nat 226) (String (ascii_of_nat 128)
    (String (ascii_of_nat 148) EmptyString)).

Definition em_dash_description : string :=
  "Bare except clause " ++ em_dash ++ " specify exception type".

(** The parser reports no negative line: neither on a handler of a tree it
    returns nor in a syntax error. *)
Definition lines_nonnegative (o : outcome AST) : Prop :=
  match o with
  | Returns tree =>
      forall lineno ty nm body,
        In (ExceptHandler lineno ty nm body) (nodes tree) -> (0 <= lineno)%Z
  | Raises (SyntaxError (Some lineno) _) => (0 <= lineno)%Z
  | Raises _ => True
  end.

(** The pattern of [_extract_code] tried at the start of [s0]. *)
Definition match_here (s0 : string) : option re_found :=
  re_match code_pattern s0 [] (fun rest gs => Some (mkFound s0 gs rest)).

(** Its last two pieces: the lazy body from [s3] on, then the closing line
    break and backticks. *)
Definition close_fence (s0 s3 : string) : option re_found :=
  first_suffix
    (fun s' =>
       match strip_prefix (newline ++ "```") s' with
       | Some rest => Some (mkFound s0 [consumed s3 s'] rest)
       | None => None
       end) s3.

(** An integer [str] can write: at most [int_max_str_digits] digits. *)
Definition printable (n : Z) : Prop := (Z.abs n < 10 ^ int_max_str_digits)%Z.

(** The decimal form of a printable integer. *)
Definition decimal (n : Z) : string := NilZero.string_of_int (Z.to_int n).

(** What a guarded capability returns on the answer [o] of the service:
    [f] of the first choice, or the fallback when the call failed or the
    answer has no choice. *)
Definition answer_or {A : Type} (f : string -> A) (fallback : A)
    (o : outcome response) : A :=
  match o with
  | Returns (content :: _) => f content
  | Returns [] => fallback
  | Raises _ => fallback
  end.

(** What a guarded capability prints on the answer [o] of the service:
    nothing, or one line with the error. *)
Definition printed_on (prefix : string) (o : outcome response) : list event :=
  match o with
  | Returns (_ :: _) => []
  | Returns [] =>
      [Print prefix (OtherException "IndexError" "list index out of range")]
  | Raises e => [Print prefix e]
  end.

(** What [_ai_bug_detection] prints on the answer [o] of the service: it
    does not read the choices. *)
Definition printed_on_failure (prefix : string) (o : outcome response) :
    list event :=
  match o with
  | Returns _ => []
  | Raises e => [Print prefix e]
  end.

(** The run sent one request, and takes the given fallback if that request
    fails. *)
Definition falls_back {A : Type}
    (ChatCompletion_create : option string -> request -> outcome response)
    (fallback : A) (p : process)
    (r : outcome A * AICodeAssistant * process) : Prop :=
  exists req more,
    effects (process_after r)
    = ((effects p ++ [Call (openai_api_key p) req]) ++ more)%list
    /\ forall e,
         ChatCompletion_create (openai_api_key p) req = Raises e ->
         result r = Returns fallback.

(** Every request the run added to the effects [before] went out under the
    given credential with the given model. *)
Definition requests_under {A : Type} (credential : option string)
    (model_name : string) (before : list event)
    (r : outcome A * AICodeAssistant * process) : Prop :=
  exists new,
    effects (process_after r) = (before ++ new)%list
    /\ forall c req, In (Call c req) new ->
                     c = credential /\ req_model req = model_name.

(** The parser reports only lines [str] can write. *)
Definition lines_printable (o : outcome AST) : Prop :=
  match o with
  | Returns tree =>
      forall lineno ty nm body,
        In (ExceptHandler lineno ty nm body) (nodes tree) -> printable lineno
  | Raises (SyntaxError (Some lineno) _) => printable lineno
  | Raises _ => True
  end.

(** The occurrences of the pattern of [_extract_code] in a text: three
    backticks, nothing or the word python, a line break, a body, a line
    break and three backticks. *)
Definition pattern_block (text pre tag body post : string) : Prop :=
  text = pre ++ "```" ++ tag ++ newline ++ body ++ newline ++ "```" ++ post
  /\ (tag = "" \/ tag = "python").

(** A fenced code block in the usual sense of the words: an opening fence
    of three backticks with any language tag on its line, the content on
    the following lines, and a closing fence of three backticks on a line
    of its own. *)
Definition no_line_break (s : string) : Prop :=
  forall a b, s <> a ++ newline ++ b.

Definition fenced_block (text pre tag body post : string) : Prop :=
  text = pre ++ "```" ++ tag ++ newline ++ body ++ newline ++ "```" ++ post
  /\ no_line_break tag.

(** ** Fixtures: concrete snippets, parser outcomes and services *)

Module Fixture.

Definition nul : string := String (ascii_of_nat 0) EmptyString.

(** [try: x = 1 / except: pass] *)
Definition bare_snippet : string :=
  "try:" ++ newline ++ "    x = 1" ++ newline
  ++ "except:" ++ newline ++ "    pass".

(** [try: x = 1 / except ValueError: pass] *)
Definition typed_snippet : string :=
  "try:" ++ newline ++ "    x = 1" ++ newline
  ++ "except ValueError:" ++ newline ++ "    pass".

(** Two bare handlers, the second nested in the first. *)
Definition nested_snippet : string :=
  "try:" ++ newline ++ "    x = 1" ++ newline
  ++ "except:" ++ newline
  ++ "    try:" ++ newline ++ "        y = 2" ++ newline
  ++ "    except:" ++ newline ++ "        pass".

Definition malformed_snippet : string := "def f(:".

(** [<name> = <constant>] *)
Definition assign : AST :=
  Node "Assign" [Node "Name" [Node "Store" []]; Node "Constant" []].

Definition try_stmt (body handlers : list AST) : AST :=
  Node "Try" (body ++ handlers).

Definition bare_tree : AST :=
  Node "Module"
    [try_stmt [assign] [ExceptHandler 3 None None [Node "Pass" []]]].

Definition typed_tree : AST :=
  Node "Module"
    [try_stmt [assign]
       [ExceptHandler 3 (Some (Node "Name" [Node "Load" []])) None
          [Node "Pass" []]]].

Definition nested_tree : AST :=
  Node "Module"
    [try_stmt [assign]
       [ExceptHandler 3 None None
          [try_stmt [assign]
             [ExceptHandler 6 None None [Node "Pass" []]]]]].

(** The parser's outcome on the snippets above, and on a text holding a
    NUL character, which CPython up to 3.11 rejects with [ValueError]
    (deeply nested input can be rejected with [RecursionError] or
    [MemoryError] in the same way); any other text is taken as an empty
    module. *)
Definition parse (source : string) : outcome AST :=
  if String.eqb source bare_snippet then Returns bare_tree
  else if String.eqb source typed_snippet then Returns typed_tree
  else if String.eqb source nested_snippet then Returns nested_tree
  else if String.eqb source malformed_snippet
       then Raises (SyntaxError (Some 1%Z) "invalid syntax")
  else if String.eqb source nul
       then Raises (OtherException "ValueError"
                      "source code string cannot contain null bytes")
  else Returns (Node "Module" []).

(** An answer with one python block between two lines of prose. *)
Definition python_answer : string :=
  "Here:" ++ newline
  ++ "```python" ++ newline ++ "x = 1" ++ newline ++ "```" ++ newline
  ++ "done".

(** An answer with two blocks in other languages and a line of prose
    between them. *)
Definition two_block_answer : string :=
  "```js" ++ newline ++ "a" ++ newline ++ "```" ++ newline
  ++ "mid" ++ newline
  ++ "```py" ++ newline ++ "b" ++ newline ++ "```".

(** A service that cannot be reached, and one that answers. *)
Definition service_down (credential : option string) (req : request) :
    outcome response :=
  Raises (OtherException "APIConnectionError"
            "Error communicating with OpenAI").

Definition service_up (credential : option string) (req : request) :
    outcome response :=
  Returns ["1. Line 3: bare except (medium)"].

Definition fresh_process : process :=
  {| openai_api_key := None; effects := [] |}.

Definition assistant : AICodeAssistant :=
  {| api_key := "sk-test"; model := "gpt-4" |}.

End Fixture.

(** ** Further notions: the order of the walk *)

(** The children of the nodes of one level, left to right: the next level
    of the tree. *)
Definition next_level (level : list AST) : list AST :=
  flat_map iter_child_nodes level.

(** The first [n] levels below (and with) [level]. *)
Fixpoint levels (n : nat) (level : list AST) : list (list AST) :=
  match n with
  | O => []
  | S k => level :: levels k (next_level level)
  end.

(** ** Further notions: texts and fences *)

(** A line break followed by three backticks somewhere in the text: what
    the pattern of [_extract_code] ends with. *)
Definition has_closing_fence (s : string) : Prop :=
  exists a b, s = a ++ newline ++ "```" ++ b.

(** No backtick anywhere in the text. *)
Fixpoint no_backtick (s : string) : bool :=
  match s with
  | EmptyString => true
  | String c s' => negb (Ascii.eqb c "`"%char) && no_backtick s'
  end.

(** ** Further notions: comparing runs *)

(** Two runs with the same outcome that leave the same process behind. *)
Definition same_run {A : Type}
    (r1 r2 : outcome A * AICodeAssistant * process) : Prop :=
  result r1 = result r2 /\ process_after r1 = process_after r2.

(** The exception Python raises when [choices] is empty. *)
Definition no_choice : exception :=
  OtherException "IndexError" "list index out of range".

(** [s'] is what is left of [s] after some prefix. *)
Definition is_suffix (s' s : string) : Prop := exists pre, s = pre ++ s'.

(** The user message of [_ai_bug_detection]. *)
Definition bug_detection_prompt (code : string) : string :=
  "Analyze this code for bugs, security issues, and problems:" ++ newline
  ++ "        " ++ newline
  ++ code ++ newline
  ++ newline
  ++ "List any issues found with severity and line numbers.".

(** ** The example driver *)

(** What the driver leaves on the terminal and on the wire, in order: the
    lines it prints itself, and the effects of the assistant's methods
    (requests, and the lines they print on failure). *)
Inductive output : Type :=
| Line (text : string)          (* print(text) *)
| Effect (ev : event).

(** A step of the driver: it reads and writes the process and extends the
    transcript, and returns or raises. *)
Definition Script (A : Type) : Type :=
  process -> list output -> outcome A * process * list output.

Definition script_ret {A : Type} (a : A) : Script A :=
  fun p t => (Returns a, p, t).

Definition script_bind {A B : Type} (m : Script A) (f : A -> Script B) :
    Script B :=
  fun p t =>
    match m p t with
    | (Returns a, p', t') => f a p' t'
    | (Raises e, p', t') => (Raises e, p', t')
    end.

Definition script_lift {A : Type} (o : outcome A) : Script A :=
  fun p t => (o, p, t).

Definition say (text : string) : Script unit :=
  fun p t => (Returns tt, p, (t ++ [Line text])%list).

(** [AICodeAssistant(api_key=..., model=...)] *)
Definition construct (api_key : string) (model : option string) :
    Script AICodeAssistant :=
  fun p t => let '(self, p') := __init__ api_key model p in (Returns self, p', t).

(** A method call on the object: its value with the object as the call
    leaves it; the effects it added to the process join the transcript. *)
Definition invoke {A : Type} (m : M A) (self : AICodeAssistant) :
    Script (A * AICodeAssistant) :=
  fun p t =>
    let '(r, self', p') := m self p in
    let t' :=
      (t ++ map Effect (skipn (List.length (effects p)) (effects p')))%list in
    match r with
    | Returns a => (Returns (a, self'), p', t')
    | Raises e => (Raises e, p', t')
    end.

(** [for x in xs: body(x)] *)
Fixpoint for_each {A : Type} (xs : list A) (body : A -> Script unit) :
    Script unit :=
  match xs with
  | [] => script_ret tt
  | x :: rest => script_bind (body x) (fun _ => for_each rest body)
  end.

(** [enumerate(xs, start)] *)
Fixpoint enumerate {A : Type} (xs : list A) (start : Z) : list (Z * A) :=
  match xs with
  | [] => []
  | x :: rest => (start, x) :: enumerate rest (start + 1)
  end.

Declare Scope script_scope.
Delimit Scope script_scope with script.
Notation "x <- m ;; k" := (script_bind m (fun x => k))
  (at level 61, m at next level, right associativity) : script_scope.
Notation "' pat <- m ;; k" :=
  (script_bind m (fun x => match x with pat => k end))
  (at level 61, pat pattern, m at next level, right associativity)
  : script_scope.
Notation "m ;;; k" := (script_bind m (fun _ => k))
  (at level 61, right associativity) : script_scope.

Definition buggy_code : string :=
  newline
  ++ "def divide(a, b):" ++ newline
  ++ "    return a / b" ++ newline
  ++ newline
  ++ "try:" ++ newline
  ++ "    result = divide(10, 0)" ++ newline
  ++ "except:" ++ newline
  ++ "    pass" ++ newline.

Definition messy_code : string :=
  newline
  ++ "def calc(x,y,z):" ++ newline
  ++ "    a=x+y" ++ newline
  ++ "    b=a*z" ++ newline
  ++ "    return b" ++ newline.

Definition complex_code : string :=
  "lambda x: reduce(lambda a,b: a*b, range(1, x+1))".

(** The line [main] prints for a finding: the f-string with its line
    number in decimal. *)
Definition bug_line (bug : BugReport) : outcome string :=
  match str_int (line_number bug) with
  | Returns shown =>
      Returns ("Line " ++ shown ++ ": [" ++ severity bug ++ "] "
               ++ description bug)
  | Raises e => Raises e
  end.

Section Driver.

(** [os.getenv] without its default: the value of a variable, if set. *)
Variable getenv : string -> option string.
Variable ast_parse : string -> outcome AST.
Variable ChatCompletion_create : option string -> request -> outcome response.

Local Open Scope script_scope.

(** [main] *)
Definition main : Script unit :=
  let api_key := default "your-api-key-here" (getenv "OPENAI_API_KEY") in
  assistant <- construct api_key None ;;
  say (newline ++ "=== Code Completion ===") ;;;
  let code_context := "def calculate_fibonacci(n):" in
  '(suggestions, assistant) <-
    invoke (complete_code ChatCompletion_create code_context None) assistant ;;
  for_each (enumerate suggestions 1)
    (fun '(i, suggestion) =>
       shown <- script_lift (str_int i) ;;
       say (newline ++ "Suggestion " ++ shown ++ ":") ;;;
       say (code suggestion)) ;;;
  say (newline ++ "=== Bug Detection ===") ;;;
  '(bugs, assistant) <-
    invoke (analyze_code ast_parse ChatCompletion_create buggy_code)
      assistant ;;
  for_each bugs (fun bug => line <- script_lift (bug_line bug) ;; say line) ;;;
  say (newline ++ "=== Code Refactoring ===") ;;;
  '(refactored, assistant) <-
    invoke (refactor ChatCompletion_create messy_code None) assistant ;;
  say "Refactored code:" ;;;
  say refactored ;;;
  say (newline ++ "=== Code Explanation ===") ;;;
  '(explanation, assistant) <-
    invoke (explain_code ChatCompletion_create complex_code) assistant ;;
  say explanation.

End Driver.

(** The lines the driver printed itself, and the requests that went out. *)
Definition lines_of (t : list output) : list string :=
  flat_map (fun o => match o with Line text => [text] | Effect _ => [] end) t.

Definition requests_of (t : list output) : list (option string * request) :=
  flat_map (fun o => match o with
                     | Effect (Call credential req) => [(credential, req)]
                     | _ => []
                     end) t.

(** The system message of a request. *)
Definition system_of (req : request) : string :=
  match req_messages req with
  | (_, content) :: _ => content
  | [] => ""
  end.

(** No request among these effects. *)
Definition no_request (evs : list event) : Prop :=
  forall credential req, ~ In (Call credential req) evs.

(** What a guarded capability comes to, for the driver: the value the
    answer to its one request decides, the object as it was, that request
    with the given system message, and after it only printed lines. *)
Definition answers_one {A : Type}
    (ChatCompletion_create : option string -> request -> outcome response)
    (system : string) (f : string -> A) (fallback : A)
    (r : outcome A * AICodeAssistant * process) (self : AICodeAssistant)
    (p : process) : Prop :=
  exists req more,
    r = (Returns (answer_or f fallback
                    (ChatCompletion_create (openai_api_key p) req)),
         self, called p req more)
    /\ req_model req = model self
    /\ system_of req = system
    /\ no_request more.

(** The text of the line [main] prints for a finding with a line number
    [str] can write. *)
Definition bug_line_shown (bug : BugReport) : string :=
  "Line " ++ decimal (line_number bug) ++ ": [" ++ severity bug ++ "] "
  ++ description bug.

(** The run added to the effects [before] exactly one request, under the
    given credential and with the given model, and after it printed lines
    only. *)
Definition one_request_under {A : Type} (credential : option string)
    (model_name : string) (before : list event)
    (r : outcome A * AICodeAssistant * process) : Prop :=
  exists req more,
    effects (process_after r) = (before ++ Call credential req :: more)%list
    /\ req_model req = model_name
    /\ no_request more.

(** The same demonstration snippet as the parser sees it. *)
Module Demo.

Definition name (ctx : string) : AST := Node "Name" [Node ctx []].

Definition buggy_tree : AST :=
  Node "Module"
    [Node "FunctionDef"
       [Node "arguments" [Node "arg" []; Node "arg" []];
        Node "Return"
          [Node "BinOp" [name "Load"; Node "Div" []; name "Load"]]];
     Node "Try"
       [Node "Assign"
          [name "Store";
           Node "Call" [name "Load"; Node "Constant" []; Node "Constant" []]];
        ExceptHandler 7 None None [Node "Pass" []]]].

Definition parse (source : string) : outcome AST :=
  if String.eqb source buggy_code then Returns buggy_tree
  else Fixture.parse source.

Definition no_environment (variable : string) : option string := None.

End Demo.

(** * Properties *)

(** ** The walk visits every node once *)

Lemma nodes_unfold (t : AST) :
  nodes t = t :: flat_map nodes (iter_child_nodes t).
Proof.
  destruct t as [l [ty|] nm body | c ch]; cbn [nodes iter_child_nodes].
  - cbn [app flat_map]. reflexivity.
  - reflexivity.
  - reflexivity.
Qed.

Lemma walk_todo_nodes (todo : list AST) :
  Permutation (walk_todo todo) (flat_map nodes todo).
Proof.
  funelim (walk_todo todo).
  - constructor.
  - cbn [flat_map]. rewrite nodes_unfold. cbn [app]. constructor.
    etransitivity; [eassumption|].
    rewrite flat_map_app. apply Permutation_app_comm.
Qed.

Lemma walk_nodes (t : AST) : Permutation (walk t) (nodes t).
Proof.
  unfold walk. etransitivity; [apply walk_todo_nodes|].
  cbn [flat_map]. rewrite app_nil_r. reflexivity.
Qed.

(** ** The loop of the check is a filter followed by a map *)

Lemma check_nodes_from (order : list AST) (bugs : list BugReport) :
  fold_left
    (fun bugs node =>
       if is_bare_except node
       then (bugs ++ [bare_except_report (node_lineno node)])%list
       else bugs)
    order bugs
  = (bugs ++ map bare_except_report
               (map node_lineno (filter is_bare_except order)))%list.
Proof.
  revert bugs. induction order as [|node order IH]; intros bugs; cbn.
  - now rewrite app_nil_r.
  - rewrite IH. destruct (is_bare_except node); cbn.
    + now rewrite <- app_assoc.
    + reflexivity.
Qed.

Lemma check_nodes_filter (order : list AST) :
  check_nodes order
  = map bare_except_report (map node_lineno (filter is_bare_except order)).
Proof. unfold check_nodes. now rewrite check_nodes_from. Qed.

Lemma filter_Permutation {A : Type} (f : A -> bool) (l l' : list A) :
  Permutation l l' -> Permutation (filter f l) (filter f l').
Proof.
  induction 1 as [|x l l' _ IH|x y l|l l' l'' _ IH1 _ IH2]; cbn.
  - constructor.
  - destruct (f x); [constructor|]; exact IH.
  - destruct (f x), (f y); try reflexivity. constructor.
  - etransitivity; eassumption.
Qed.

Lemma check_nodes_Permutation (order order' : list AST) :
  Permutation order order' ->
  Permutation (check_nodes order) (check_nodes order').
Proof.
  intros H. rewrite !check_nodes_filter.
  now do 2 apply Permutation_map; apply filter_Permutation.
Qed.

Lemma ast_analysis_lines (t : AST) :
  Permutation (map line_number (_ast_analysis t)) (bare_lines t).
Proof.
  unfold _ast_analysis, bare_lines, bare_clauses.
  rewrite check_nodes_filter, map_map. cbn [bare_except_report line_number].
  rewrite map_id. apply Permutation_map, filter_Permutation, walk_nodes.
Qed.

Lemma ast_analysis_reports (t : AST) (b : BugReport) :
  In b (_ast_analysis t) -> b = bare_except_report (line_number b).
Proof.
  unfold _ast_analysis. rewrite check_nodes_filter.
  intros H. apply in_map_iff in H as [l [<- _]]. reflexivity.
Qed.

(** ** Writing integers *)

Lemma str_int_printable (n : Z) :
  printable n -> str_int n = Returns (decimal n).
Proof.
  unfold printable, str_int, decimal. intros H.
  destruct (Z.ltb_spec (Z.abs n) (10 ^ int_max_str_digits)); [reflexivity|lia].
Qed.

Lemma str_int_unprintable (n : Z) :
  ~ printable n ->
  str_int n
  = Raises (OtherException "ValueError"
              "Exceeds the limit (4300 digits) for integer string conversion").
Proof.
  unfold printable, str_int. intros H.
  destruct (Z.ltb_spec (Z.abs n) (10 ^ int_max_str_digits));
    [contradiction | reflexivity].
Qed.

Lemma printable_3 : printable 3.
Proof. unfold printable. vm_compute. reflexivity. Qed.

Lemma printable_default (max_suggestions : option Z) :
  (forall n, max_suggestions = Some n -> printable n) ->
  printable (default 3%Z max_suggestions).
Proof.
  destruct max_suggestions as [n|]; cbn [default]; intros H;
    [now apply H | exact printable_3].
Qed.

(** ** What each method does to the object, the process and its result *)

Section Runs.

Variable ast_parse : string -> outcome AST.
Variable ChatCompletion_create : option string -> request -> outcome response.

Lemma create_run system prompt temperature max_tokens self p :
  create ChatCompletion_create system prompt temperature max_tokens self p
  = (ChatCompletion_create (openai_api_key p)
       (the_request self system prompt temperature max_tokens),
     self,
     called p (the_request self system prompt temperature max_tokens) []).
Proof.
  unfold create, bind, get_self, get_openai_api_key, emit, lift, called.
  cbn. now rewrite app_nil_r.
Qed.

Lemma ai_bug_detection_run code self p :
  exists req more,
    _ai_bug_detection ChatCompletion_create code self p
    = (Returns [], self, called p req more)
    /\ req_model req = model self
    /\ (more = []
        \/ exists e, more = [Print "Error in AI bug detection: " e]).
Proof.
  unfold _ai_bug_detection, try_except, bind. rewrite create_run.
  destruct (ChatCompletion_create _ _) as [r|e]; cbn.
  - eexists _, []. repeat split; auto.
  - eexists _, [Print _ e]. unfold called. cbn. rewrite app_nil_r.
    repeat split; eauto.
Qed.

Ltac run_guarded :=
  unfold guarded_run, try_except, bind; rewrite create_run;
  match goal with
  | |- context [ChatCompletion_create (openai_api_key _) ?req] => exists req
  end;
  split; [reflexivity|];
  destruct (ChatCompletion_create _ _) as [[|content r]|e];
  cbn; unfold called; cbn; rewrite ?app_nil_r; reflexivity.

Lemma complete_code_run code_context max_suggestions self p :
  printable (default 3%Z max_suggestions) ->
  guarded_run ChatCompletion_create "Error generating code completion: "
    (fun _ => []) [] self p
    (complete_code ChatCompletion_create code_context max_suggestions
       self p).
Proof.
  intros H. unfold complete_code, _parse_suggestions.
  unfold bind at 1, lift. rewrite (str_int_printable _ H). run_guarded.
Qed.

(** An integer too long to write: the f-string raises before the [try],
    nothing has been sent or printed. *)
Lemma complete_code_unprintable code_context max_suggestions self p :
  ~ printable (default 3%Z max_suggestions) ->
  complete_code ChatCompletion_create code_context max_suggestions self p
  = (Raises (OtherException "ValueError"
               "Exceeds the limit (4300 digits) for integer string conversion"),
     self, p).
Proof.
  intros H. unfold complete_code, bind at 1, lift.
  now rewrite (str_int_unprintable _ H).
Qed.

Lemma refactor_run code style self p :
  guarded_run ChatCompletion_create "Error refactoring code: "
    _extract_code code self p
    (refactor ChatCompletion_create code style self p).
Proof. unfold refactor. run_guarded. Qed.

Lemma generate_documentation_run code self p :
  guarded_run ChatCompletion_create "Error generating documentation: "
    (fun content => content) "" self p
    (generate_documentation ChatCompletion_create code self p).
Proof. unfold generate_documentation. run_guarded. Qed.

Lemma explain_code_run code self p :
  guarded_run ChatCompletion_create "Error explaining code: "
    (fun content => content) "" self p
    (explain_code ChatCompletion_create code self p).
Proof. unfold explain_code. run_guarded. Qed.

Lemma guarded_run_returns {A : Type} prefix (f : string -> A) fallback
    self p r :
  guarded_run ChatCompletion_create prefix f fallback self p r ->
  exists v, result r = Returns v.
Proof.
  intros (req & _ & H).
  destruct (ChatCompletion_create _ _) as [[|content r']|e]; subst r;
    eexists; reflexivity.
Qed.

Lemma guarded_run_preserves {A : Type} prefix (f : string -> A) fallback
    self p r :
  guarded_run ChatCompletion_create prefix f fallback self p r ->
  self_after r = self
  /\ openai_api_key (process_after r) = openai_api_key p.
Proof.
  intros (req & _ & H).
  destruct (ChatCompletion_create _ _) as [[|content r']|e]; subst r;
    split; reflexivity.
Qed.

Lemma guarded_run_fallback {A : Type} prefix (f : string -> A) fallback
    self p r :
  (forall credential req, exists e,
      ChatCompletion_create credential req = Raises e) ->
  guarded_run ChatCompletion_create prefix f fallback self p r ->
  result r = Returns fallback.
Proof.
  intros Hdown (req & _ & H).
  destruct (Hdown (openai_api_key p) req) as [e He].
  rewrite He in H. subst r. reflexivity.
Qed.

Lemma analyze_code_run code self p :
  exists q,
    analyze_code ast_parse ChatCompletion_create code self p
    = (static_outcome (ast_parse code), self, q)
    /\ openai_api_key q = openai_api_key p
    /\ match static_outcome (ast_parse code) with
       | Returns _ =>
           exists req more,
             q = called p req more /\ req_model req = model self
             /\ (more = []
                 \/ exists e,
                     more = [Print "Error in AI bug detection: " e])
       | Raises _ => q = p
       end.
Proof.
  unfold analyze_code, bind at 1, try_except, bind at 1, lift, ret.
  destruct (ast_parse code) as [tree | [lineno msg | cls text]];
    cbn [static_outcome is_SyntaxError app].
  - unfold bind.
    destruct (ai_bug_detection_run code self p) as (req & more & -> & Hm & Hp).
    rewrite app_nil_r. eexists. split; [reflexivity|]. split; [reflexivity|].
    eauto.
  - unfold bind.
    destruct (ai_bug_detection_run code self p) as (req & more & -> & Hm & Hp).
    eexists. split; [reflexivity|]. split; [reflexivity|]. eauto.
  - unfold raise. eexists. split; [reflexivity|]. split; reflexivity.
Qed.

Lemma analyze_code_result code self p :
  result (analyze_code ast_parse ChatCompletion_create code self p)
  = static_outcome (ast_parse code).
Proof.
  destruct (analyze_code_run code self p) as (q & -> & _). reflexivity.
Qed.

Lemma ai_bug_detection_exact code self p :
  exists req,
    req_model req = model self
    /\ _ai_bug_detection ChatCompletion_create code self p
       = (Returns [], self,
          called p req
            (printed_on_failure "Error in AI bug detection: "
               (ChatCompletion_create (openai_api_key p) req))).
Proof.
  unfold _ai_bug_detection, try_except, bind. rewrite create_run.
  match goal with
  | |- context [ChatCompletion_create (openai_api_key _) ?req] => exists req
  end.
  split; [reflexivity|].
  destruct (ChatCompletion_create _ _) as [r|e]; [reflexivity|].
  unfold is_Exception, print, emit, ret, called, printed_on_failure.
  cbn [openai_api_key effects]. now rewrite app_nil_r.
Qed.

Lemma analyze_code_exact code bugs self p :
  static_outcome (ast_parse code) = Returns bugs ->
  exists req,
    req_model req = model self
    /\ analyze_code ast_parse ChatCompletion_create code self p
       = (Returns bugs, self,
          called p req
            (printed_on_failure "Error in AI bug detection: "
               (ChatCompletion_create (openai_api_key p) req))).
Proof.
  intros Hstatic.
  destruct (ai_bug_detection_exact code self p) as (req & Hmodel & Hrun).
  exists req. split; [exact Hmodel|].
  unfold analyze_code, try_except, bind, lift, ret.
  destruct (ast_parse code) as [tree | [lineno msg | cls text]];
    cbn [static_outcome] in Hstatic; [| |discriminate Hstatic];
    injection Hstatic as <-; cbn [is_SyntaxError]; rewrite Hrun;
    cbn [app]; rewrite ?app_nil_r; reflexivity.
Qed.

End Runs.

(** ** The static check *)

Lemma ast_analysis_map (t : AST) :
  exists lines,
    _ast_analysis t = map bare_except_report lines
    /\ Permutation lines (bare_lines t).
Proof.
  exists (map node_lineno (filter is_bare_except (walk t))). split.
  - unfold _ast_analysis. apply check_nodes_filter.
  - apply Permutation_map, filter_Permutation, walk_nodes.
Qed.

Lemma bare_lines_nil (t : AST) : bare_clauses t = [] -> bare_lines t = [].
Proof. unfold bare_lines. now intros ->. Qed.

(** C1: a snippet that parses and holds no bare [except:] clause gets the
    empty list of reports from [analyze_code]. *)
Theorem analyze_code_no_bare_except
    (ast_parse : string -> outcome AST)
    (ChatCompletion_create : option string -> request -> outcome response)
    (code : string) (tree : AST) (self : AICodeAssistant) (p : process) :
  ast_parse code = Returns tree ->
  bare_clauses tree = [] ->
  result (analyze_code ast_parse ChatCompletion_create code self p)
  = Returns [].
Proof.
  intros Hparse Hnone. rewrite analyze_code_result, Hparse.
  cbn [static_outcome]. f_equal.
  destruct (ast_analysis_map tree) as (lines & -> & Hperm).
  rewrite (bare_lines_nil _ Hnone) in Hperm.
  apply Permutation_sym, Permutation_nil in Hperm. now subst.
Qed.

Lemma analyze_code_no_bare_except_witness :
  result (analyze_code Fixture.parse Fixture.service_up Fixture.typed_snippet
            Fixture.assistant Fixture.fresh_process)
  = Returns [].
Proof.
  apply (analyze_code_no_bare_except _ _ _ Fixture.typed_tree); reflexivity.
Defined.

(** C2, as the code has it: a snippet that parses and holds exactly one
    bare [except:] clause, at line [L], gets exactly one report: line [L],
    severity MEDIUM, the description with a hyphen, the fixed suggestion. *)
Theorem analyze_code_one_bare_except
    (ast_parse : string -> outcome AST)
    (ChatCompletion_create : option string -> request -> outcome response)
    (code : string) (tree : AST) (L : Z) (self : AICodeAssistant)
    (p : process) :
  ast_parse code = Returns tree ->
  bare_lines tree = [L] ->
  result (analyze_code ast_parse ChatCompletion_create code self p)
  = Returns [ {| line_number := L;
                 severity := "MEDIUM";
                 description := "Bare except clause - specify exception type";
                 fix_suggestion := Some "except Exception as e:" |} ].
Proof.
  intros Hparse Hone. rewrite analyze_code_result, Hparse.
  cbn [static_outcome]. f_equal.
  destruct (ast_analysis_map tree) as (lines & -> & Hperm).
  rewrite Hone in Hperm. apply Permutation_sym, Permutation_length_1_inv in Hperm.
  subst lines. reflexivity.
Qed.

Lemma analyze_code_one_bare_except_witness :
  result (analyze_code Fixture.parse Fixture.service_down Fixture.bare_snippet
            Fixture.assistant Fixture.fresh_process)
  = Returns [ {| line_number := 3;
                 severity := "MEDIUM";
                 description := "Bare except clause - specify exception type";
                 fix_suggestion := Some "except Exception as e:" |} ].
Proof.
  apply (analyze_code_one_bare_except _ _ _ Fixture.bare_tree); reflexivity.
Defined.

(** C2, as stated, fails on the specification's own scenario: the one
    report carries the description with a hyphen, not the quoted one with
    an em dash. *)
Lemma analyze_code_em_dash_counterexample :
  Fixture.parse Fixture.bare_snippet = Returns Fixture.bare_tree
  /\ bare_lines Fixture.bare_tree = [3%Z]
  /\ result (analyze_code Fixture.parse Fixture.service_down
               Fixture.bare_snippet Fixture.assistant Fixture.fresh_process)
     <> Returns [ {| line_number := 3;
                     severity := "MEDIUM";
                     description := em_dash_description;
                     fix_suggestion := Some "except Exception as e:" |} ].
Proof.
  split; [reflexivity|]. split; [reflexivity|].
  vm_compute. discriminate.
Qed.

(** C3: a snippet that parses and holds [N] bare [except:] clauses at
    distinct lines gets exactly [N] reports, whose lines are the lines of
    the clauses, each once; every report is the fixed one for its line; and
    running the check over the nodes in any other order gives the same
    reports up to their order. *)
Theorem analyze_code_each_clause_once
    (ast_parse : string -> outcome AST)
    (ChatCompletion_create : option string -> request -> outcome response)
    (code : string) (tree : AST) (N : nat) (self : AICodeAssistant)
    (p : process) :
  ast_parse code = Returns tree ->
  NoDup (bare_lines tree) ->
  List.length (bare_clauses tree) = N ->
  exists bugs,
    result (analyze_code ast_parse ChatCompletion_create code self p)
    = Returns bugs
    /\ List.length bugs = N
    /\ Permutation (map line_number bugs) (bare_lines tree)
    /\ NoDup (map line_number bugs)
    /\ (forall L, In L (bare_lines tree) ->
                  exists b, In b bugs /\ line_number b = L
                            /\ forall b', In b' bugs ->
                                          line_number b' = L -> b' = b)
    /\ (forall b, In b bugs -> b = bare_except_report (line_number b))
    /\ (forall order, Permutation order (nodes tree) ->
                      Permutation (check_nodes order) bugs).
Proof.
  intros Hparse Hdistinct Hcount. exists (_ast_analysis tree).
  rewrite analyze_code_result, Hparse. cbn [static_outcome].
  pose proof (ast_analysis_lines tree) as Hlines.
  pose proof (ast_analysis_reports tree) as Hfixed.
  split; [reflexivity|]. split.
  { rewrite <- (length_map line_number), (Permutation_length Hlines).
    unfold bare_lines. now rewrite length_map. }
  split; [exact Hlines|]. split.
  { eapply Permutation_NoDup; [symmetry; exact Hlines | exact Hdistinct]. }
  split.
  { intros L HL.
    apply (Permutation_in _ (Permutation_sym Hlines)) in HL.
    apply in_map_iff in HL as (b & Hb & Hin). exists b.
    split; [exact Hin|]. split; [exact Hb|].
    intros b' Hin' Hb'. rewrite (Hfixed b' Hin'), (Hfixed b Hin).
    now rewrite Hb, Hb'. }
  split; [exact Hfixed|].
  intros order Horder. unfold _ast_analysis.
  apply check_nodes_Permutation.
  etransitivity; [exact Horder | symmetry; apply walk_nodes].
Qed.

Lemma analyze_code_each_clause_once_witness :
  exists bugs,
    result (analyze_code Fixture.parse Fixture.service_up
              Fixture.nested_snippet Fixture.assistant Fixture.fresh_process)
    = Returns bugs
    /\ List.length bugs = 2.
Proof.
  destruct (analyze_code_each_clause_once Fixture.parse Fixture.service_up
              Fixture.nested_snippet Fixture.nested_tree 2
              Fixture.assistant Fixture.fresh_process)
    as (bugs & Hres & Hlen & _).
  - reflexivity.
  - cbn. repeat constructor; cbn; intuition discriminate.
  - reflexivity.
  - exists bugs. split; assumption.
Defined.

Lemma lineno_or_0_spec (lineno : option Z) :
  lineno_or_0 lineno = match lineno with Some l => l | None => 0%Z end.
Proof.
  destruct lineno as [l|]; cbn; [|reflexivity].
  destruct (Z.eqb_spec l 0); congruence.
Qed.

(** C4: a snippet the parser rejects with a syntax error gets exactly one
    report: severity HIGH, a description made of a fixed prefix and the
    parser's message, and the parser's line, or 0 when it gives none. *)
Theorem analyze_code_syntax_error
    (ast_parse : string -> outcome AST)
    (ChatCompletion_create : option string -> request -> outcome response)
    (code : string) (lineno : option Z) (msg : string)
    (self : AICodeAssistant) (p : process) :
  ast_parse code = Raises (SyntaxError lineno msg) ->
  exists b,
    result (analyze_code ast_parse ChatCompletion_create code self p)
    = Returns [b]
    /\ severity b = "HIGH"
    /\ description b = "Syntax Error: " ++ msg
    /\ (exists before after, description b = before ++ msg ++ after)
    /\ line_number b = match lineno with Some l => l | None => 0%Z end.
Proof.
  intros Hparse. rewrite analyze_code_result, Hparse. cbn [static_outcome].
  eexists. split; [reflexivity|]. cbn [severity description line_number].
  split; [reflexivity|]. split; [reflexivity|]. split.
  - exists "Syntax Error: ", "". f_equal.
    clear. induction msg as [|c m IH]; cbn; [reflexivity | now f_equal].
  - apply lineno_or_0_spec.
Qed.

Lemma analyze_code_syntax_error_witness :
  exists b,
    result (analyze_code Fixture.parse Fixture.service_down
              Fixture.malformed_snippet Fixture.assistant
              Fixture.fresh_process)
    = Returns [b]
    /\ severity b = "HIGH"
    /\ description b = "Syntax Error: invalid syntax"
    /\ line_number b = 1%Z.
Proof.
  destruct (analyze_code_syntax_error Fixture.parse Fixture.service_down
              Fixture.malformed_snippet (Some 1%Z) "invalid syntax"
              Fixture.assistant Fixture.fresh_process)
    as (b & Hres & Hsev & Hdesc & _ & Hline).
  - reflexivity.
  - exists b. repeat split; assumption.
Defined.

(** C10: when the parser reports no negative line, every report returned by
    [analyze_code] has severity MEDIUM or HIGH and a non-negative line. *)
Theorem analyze_code_reports_wellformed
    (ast_parse : string -> outcome AST)
    (ChatCompletion_create : option string -> request -> outcome response)
    (code : string) (self : AICodeAssistant) (p : process)
    (bugs : list BugReport) :
  lines_nonnegative (ast_parse code) ->
  result (analyze_code ast_parse ChatCompletion_create code self p)
  = Returns bugs ->
  Forall (fun b => (severity b = "MEDIUM" \/ severity b = "HIGH")
                   /\ severity b <> "LOW"
                   /\ (0 <= line_number b)%Z) bugs.
Proof.
  intros Hlines. rewrite analyze_code_result.
  destruct (ast_parse code) as [tree | [lineno msg | cls text]];
    cbn [static_outcome lines_nonnegative] in *; intros [= <-].
  - apply Forall_forall. intros b Hb.
    unfold _ast_analysis in Hb. rewrite check_nodes_filter, map_map in Hb.
    apply in_map_iff in Hb as (node & <- & Hnode).
    apply filter_In in Hnode as [Hin Hbare]. cbn.
    split; [now left|]. split; [discriminate|].
    destruct node as [l [ty|] nm body | c ch]; try discriminate Hbare.
    cbn. apply (Hlines l None nm body).
    eapply Permutation_in; [apply walk_nodes | exact Hin].
  - constructor; [|constructor]. cbn.
    split; [now right|]. split; [discriminate|].
    rewrite lineno_or_0_spec. destruct lineno; [exact Hlines | reflexivity].
Qed.

Lemma analyze_code_reports_wellformed_witness :
  Forall (fun b => (severity b = "MEDIUM" \/ severity b = "HIGH")
                   /\ severity b <> "LOW"
                   /\ (0 <= line_number b)%Z)
    [bare_except_report 3; bare_except_report 6].
Proof.
  apply (analyze_code_reports_wellformed Fixture.parse Fixture.service_up
           Fixture.nested_snippet Fixture.assistant Fixture.fresh_process).
  - cbn. intros lineno ty nm body H.
    repeat (destruct H as [H|H]; [inversion H; subst; lia|]).
    destruct H.
  - reflexivity.
Defined.

(** ** The capabilities that only relay *)

(** C8, as the code has it: [complete_code] returns the empty list,
    whatever the context and the answer of the service, for every number of
    suggestions that can be written into the prompt (at most 4300 digits,
    as the default 3 is). *)
Theorem complete_code_empty
    (ChatCompletion_create : option string -> request -> outcome response)
    (code_context : string) (max_suggestions : option Z)
    (self : AICodeAssistant) (p : process) :
  printable (default 3%Z max_suggestions) ->
  result (complete_code ChatCompletion_create code_context max_suggestions
            self p)
  = Returns [].
Proof.
  intros Hn.
  destruct (complete_code_run ChatCompletion_create code_context
              max_suggestions self p Hn) as (req & _ & H).
  destruct (ChatCompletion_create _ _) as [[|content r]|e]; rewrite H;
    reflexivity.
Qed.

Lemma complete_code_empty_witness :
  result (complete_code Fixture.service_up "def calculate_fibonacci(n):"
            (Some 5%Z) Fixture.assistant Fixture.fresh_process)
  = Returns [].
Proof.
  apply complete_code_empty. unfold printable. vm_compute. reflexivity.
Defined.

(** C8, as stated, fails: asked for a number of suggestions of 4301 digits,
    [complete_code] raises [ValueError] while it builds the prompt, before
    the guarded block; no request has gone out. *)
Lemma complete_code_huge_count_counterexample :
  complete_code Fixture.service_up "def calculate_fibonacci(n):"
    (Some (10 ^ 4300)%Z) Fixture.assistant Fixture.fresh_process
  = (Raises (OtherException "ValueError"
               "Exceeds the limit (4300 digits) for integer string conversion"),
     Fixture.assistant, Fixture.fresh_process).
Proof.
  apply complete_code_unprintable. unfold printable. vm_compute.
  discriminate.
Qed.

(** ** Totality *)

Lemma guarded_run_falls_back {A : Type}
    (ChatCompletion_create : option string -> request -> outcome response)
    prefix (f : string -> A) fallback self p r :
  guarded_run ChatCompletion_create prefix f fallback self p r ->
  falls_back ChatCompletion_create fallback p r.
Proof.
  intros (req & _ & H). exists req.
  destruct (ChatCompletion_create _ _) as [[|content r']|e] eqn:E; subst r;
    eexists; (split; [reflexivity|]); intros e' He'; try discriminate He';
    reflexivity.
Qed.

(** C5, as the code has it: [refactor], [generate_documentation] and
    [explain_code] return a value for every input and every answer or
    failure of the service, [complete_code] does so for every number of
    suggestions it can write into its prompt (at most 4300 digits), and
    [analyze_code] whenever the parser returns a tree or raises
    [SyntaxError]; when the request a capability sends fails, its value is
    the empty list, the unmodified input of [refactor] or the empty text,
    and [analyze_code] returns the findings of the static check whatever
    becomes of its request. *)
Theorem capabilities_return
    (ast_parse : string -> outcome AST)
    (ChatCompletion_create : option string -> request -> outcome response)
    (self : AICodeAssistant) (p : process)
    (code_context : string) (max_suggestions : option Z)
    (code : string) (style : option string) :
  (forall cls text, ast_parse code <> Raises (OtherException cls text)) ->
  printable (default 3%Z max_suggestions) ->
  (exists v, result (complete_code ChatCompletion_create code_context
                       max_suggestions self p) = Returns v)
  /\ (exists v, result (analyze_code ast_parse ChatCompletion_create code
                          self p) = Returns v)
  /\ (exists v, result (refactor ChatCompletion_create code style self p)
                = Returns v)
  /\ (exists v, result (generate_documentation ChatCompletion_create code
                          self p) = Returns v)
  /\ (exists v, result (explain_code ChatCompletion_create code self p)
                = Returns v)
  /\ falls_back ChatCompletion_create []
       p (complete_code ChatCompletion_create code_context max_suggestions
            self p)
  /\ falls_back ChatCompletion_create code
       p (refactor ChatCompletion_create code style self p)
  /\ falls_back ChatCompletion_create ""
       p (generate_documentation ChatCompletion_create code self p)
  /\ falls_back ChatCompletion_create ""
       p (explain_code ChatCompletion_create code self p)
  /\ result (analyze_code ast_parse ChatCompletion_create code self p)
     = static_outcome (ast_parse code).
Proof.
  intros Hparser Hcount.
  pose proof (complete_code_run ChatCompletion_create code_context
                max_suggestions self p Hcount) as Hc.
  pose proof (refactor_run ChatCompletion_create code style self p) as Hr.
  pose proof (generate_documentation_run ChatCompletion_create code self p)
    as Hd.
  pose proof (explain_code_run ChatCompletion_create code self p) as He.
  split; [eapply guarded_run_returns; exact Hc|].
  split.
  { rewrite analyze_code_result.
    destruct (ast_parse code) as [tree | [lineno msg | cls text]];
      cbn [static_outcome]; eauto.
    now destruct (Hparser cls text). }
  split; [eapply guarded_run_returns; exact Hr|].
  split; [eapply guarded_run_returns; exact Hd|].
  split; [eapply guarded_run_returns; exact He|].
  split; [eapply guarded_run_falls_back; exact Hc|].
  split; [eapply guarded_run_falls_back; exact Hr|].
  split; [eapply guarded_run_falls_back; exact Hd|].
  split; [eapply guarded_run_falls_back; exact He|].
  apply analyze_code_result.
Qed.

Lemma capabilities_return_witness :
  (exists v,
      result (analyze_code Fixture.parse Fixture.service_down
                Fixture.bare_snippet Fixture.assistant Fixture.fresh_process)
      = Returns v)
  /\ falls_back Fixture.service_down Fixture.bare_snippet
       Fixture.fresh_process
       (refactor Fixture.service_down Fixture.bare_snippet None
          Fixture.assistant Fixture.fresh_process).
Proof.
  destruct (capabilities_return Fixture.parse Fixture.service_down
              Fixture.assistant Fixture.fresh_process
              "def f(n):" None Fixture.bare_snippet None)
    as (_ & Hanalyze & _ & _ & _ & _ & Hrefactor & _).
  - intros cls text. vm_compute. discriminate.
  - unfold printable. vm_compute. reflexivity.
  - split; [exact Hanalyze | exact Hrefactor].
Defined.

(** C5, as stated, fails: on a text the parser rejects with an exception
    other than [SyntaxError], [analyze_code] raises to its caller; and asked
    for a number of suggestions of 4301 digits, so does [complete_code]. *)
Lemma analyze_code_raises_counterexample :
  result (analyze_code Fixture.parse Fixture.service_up Fixture.nul
            Fixture.assistant Fixture.fresh_process)
  = Raises (OtherException "ValueError"
              "source code string cannot contain null bytes")
  /\ result (complete_code Fixture.service_up "x = 1"
               (Some (- 10 ^ 4300)%Z) Fixture.assistant
               Fixture.fresh_process)
     = Raises (OtherException "ValueError"
                 "Exceeds the limit (4300 digits) for integer string conversion").
Proof.
  split; [reflexivity|].
  rewrite complete_code_unprintable; [reflexivity|].
  unfold printable. vm_compute. discriminate.
Qed.

(** ** The credential and the model *)

Lemma guarded_run_requests {A : Type}
    (ChatCompletion_create : option string -> request -> outcome response)
    prefix (f : string -> A) fallback self p r :
  guarded_run ChatCompletion_create prefix f fallback self p r ->
  exists req more,
    effects (process_after r)
    = ((effects p ++ [Call (openai_api_key p) req]) ++ more)%list
    /\ req_model req = model self
    /\ (more = [] \/ exists e, more = [Print prefix e]).
Proof.
  intros (req & Hmodel & H). exists req.
  destruct (ChatCompletion_create _ _) as [[|content r']|e]; subst r;
    eexists; (split; [reflexivity|]); (split; [exact Hmodel|]); eauto.
Qed.

Lemma printable_dec (n : Z) : {printable n} + {~ printable n}.
Proof. unfold printable. apply Z_lt_dec. Qed.

Lemma complete_code_preserves
    (ChatCompletion_create : option string -> request -> outcome response)
    (code_context : string) (max_suggestions : option Z) :
  preserves_configuration
    (complete_code ChatCompletion_create code_context max_suggestions).
Proof.
  intros self p.
  destruct (printable_dec (default 3%Z max_suggestions)) as [H|H].
  - eapply guarded_run_preserves. now apply complete_code_run.
  - rewrite (complete_code_unprintable _ _ _ _ _ H). now split.
Qed.

Lemma guarded_run_requests_under {A : Type}
    (ChatCompletion_create : option string -> request -> outcome response)
    prefix (f : string -> A) fallback self p r :
  guarded_run ChatCompletion_create prefix f fallback self p r ->
  requests_under (openai_api_key p) (model self) (effects p) r.
Proof.
  intros H. apply guarded_run_requests in H
    as (req & more & Heff & Hmodel & Hmore).
  exists ([Call (openai_api_key p) req] ++ more)%list.
  split; [now rewrite app_assoc|].
  intros c req' [Hin | Hin].
  - injection Hin as <- <-. now split.
  - destruct Hmore as [-> | [e ->]]; [destruct Hin|].
    destruct Hin as [Hin | []]. discriminate Hin.
Qed.

Lemma no_effect_requests_under {A : Type} (credential : option string)
    (model_name : string) (o : outcome A) (self : AICodeAssistant)
    (p : process) :
  requests_under credential model_name (effects p) (o, self, p).
Proof.
  exists []. split; [now rewrite app_nil_r | intros c req []].
Qed.

(** C6, as the code has it: construction sets the two fields of the object
    and writes the credential to the process-wide [openai.api_key]; no
    capability changes the object or that setting; and every request of
    every capability goes out with the model of the object under the
    process-wide credential. *)
Theorem configuration_read_only
    (ast_parse : string -> outcome AST)
    (ChatCompletion_create : option string -> request -> outcome response) :
  (forall key mdl p,
      api_key (fst (__init__ key mdl p)) = key
      /\ model (fst (__init__ key mdl p)) = default "gpt-4" mdl
      /\ openai_api_key (snd (__init__ key mdl p)) = Some key
      /\ effects (snd (__init__ key mdl p)) = effects p)
  /\ (forall code_context max_suggestions,
        preserves_configuration
          (complete_code ChatCompletion_create code_context max_suggestions))
  /\ (forall code,
        preserves_configuration
          (analyze_code ast_parse ChatCompletion_create code))
  /\ (forall code style,
        preserves_configuration (refactor ChatCompletion_create code style))
  /\ (forall code,
        preserves_configuration
          (generate_documentation ChatCompletion_create code))
  /\ (forall code,
        preserves_configuration (explain_code ChatCompletion_create code))
  /\ (forall code self p,
        exists req more,
          effects (process_after
                     (explain_code ChatCompletion_create code self p))
          = ((effects p ++ [Call (openai_api_key p) req]) ++ more)%list
          /\ req_model req = model self
          /\ (more = [] \/ exists e, more = [Print "Error explaining code: " e]))
  /\ (forall code_context max_suggestions self p,
        requests_under (openai_api_key p) (model self) (effects p)
          (complete_code ChatCompletion_create code_context max_suggestions
             self p))
  /\ (forall code self p,
        requests_under (openai_api_key p) (model self) (effects p)
          (analyze_code ast_parse ChatCompletion_create code self p))
  /\ (forall code style self p,
        requests_under (openai_api_key p) (model self) (effects p)
          (refactor ChatCompletion_create code style self p))
  /\ (forall code self p,
        requests_under (openai_api_key p) (model self) (effects p)
          (generate_documentation ChatCompletion_create code self p))
  /\ (forall code self p,
        requests_under (openai_api_key p) (model self) (effects p)
          (explain_code ChatCompletion_create code self p)).
Proof.
  split; [intros key mdl p; repeat split|].
  split; [intros c n; apply complete_code_preserves|].
  split.
  { intros code self p.
    destruct (analyze_code_run ast_parse ChatCompletion_create code self p)
      as (q & -> & Hkey & _).
    split; [reflexivity | exact Hkey]. }
  split; [intros c st self p; eapply guarded_run_preserves;
          apply refactor_run|].
  split; [intros c self p; eapply guarded_run_preserves;
          apply generate_documentation_run|].
  split; [intros c self p; eapply guarded_run_preserves;
          apply explain_code_run|].
  split; [intros code self p; eapply guarded_run_requests;
          apply explain_code_run|].
  split.
  { intros c n self p.
    destruct (printable_dec (default 3%Z n)) as [H|H].
    - eapply guarded_run_requests_under. now apply complete_code_run.
    - rewrite (complete_code_unprintable _ _ _ _ _ H).
      apply no_effect_requests_under. }
  split.
  { intros code self p.
    destruct (analyze_code_run ast_parse ChatCompletion_create code self p)
      as (q & -> & _ & Hq).
    destruct (static_outcome (ast_parse code)) as [bugs|e].
    - destruct Hq as (req & more & -> & Hmodel & Hmore).
      exists ([Call (openai_api_key p) req] ++ more)%list.
      split; [unfold process_after, called; cbn [snd effects];
              now rewrite app_assoc|].
      intros c req' [Hin | Hin].
      + injection Hin as <- <-. now split.
      + destruct Hmore as [-> | [e ->]]; [destruct Hin|].
        destruct Hin as [Hin | []]. discriminate Hin.
    - subst q. apply no_effect_requests_under. }
  split; [intros c st self p; eapply guarded_run_requests_under;
          apply refactor_run|].
  split; [intros c self p; eapply guarded_run_requests_under;
          apply generate_documentation_run|].
  intros c self p; eapply guarded_run_requests_under; apply explain_code_run.
Qed.

(** C6, as stated, fails: the credential is a setting of the whole process.
    Constructing a second assistant replaces it, and the first assistant's
    next request goes out under the second one's credential. *)
Lemma shared_credential_counterexample :
  let first := __init__ "key-A" None Fixture.fresh_process in
  let second := __init__ "key-B" None (snd first) in
  api_key (fst first) = "key-A"
  /\ openai_api_key (snd first) = Some "key-A"
  /\ openai_api_key (snd second) = Some "key-B"
  /\ exists req,
       effects (process_after
                  (explain_code Fixture.service_up "x = 1" (fst first)
                     (snd second)))
       = [Call (Some "key-B") req].
Proof.
  cbv zeta. repeat split. eexists. reflexivity.
Qed.

(** ** Determinism and effects of the analysis *)

(** C7, as the code has it: the outcome of [analyze_code] is a function of
    the parser's outcome on the text alone, the same for every object,
    process and service; it is not free of effects: whenever it returns, it
    has sent one request, and it has printed one line, naming the error,
    exactly when that request failed. *)
Theorem analyze_code_deterministic
    (ast_parse : string -> outcome AST)
    (create1 create2 : option string -> request -> outcome response)
    (code : string) (self1 self2 : AICodeAssistant) (p1 p2 : process) :
  result (analyze_code ast_parse create1 code self1 p1)
  = result (analyze_code ast_parse create2 code self2 p2)
  /\ result (analyze_code ast_parse create1 code self1 p1)
     = static_outcome (ast_parse code)
  /\ ((exists bugs, static_outcome (ast_parse code) = Returns bugs) ->
      exists req,
        req_model req = model self1
        /\ effects (process_after
                      (analyze_code ast_parse create1 code self1 p1))
           = ((effects p1 ++ [Call (openai_api_key p1) req])
              ++ match create1 (openai_api_key p1) req with
                 | Returns _ => []
                 | Raises e => [Print "Error in AI bug detection: " e]
                 end)%list).
Proof.
  split; [now rewrite !analyze_code_result|].
  split; [apply analyze_code_result|].
  intros [bugs Hbugs].
  destruct (analyze_code_exact ast_parse create1 code bugs self1 p1 Hbugs)
    as (req & Hmodel & ->).
  exists req. split; [exact Hmodel | reflexivity].
Qed.

Lemma analyze_code_deterministic_witness :
  result (analyze_code Fixture.parse Fixture.service_up Fixture.bare_snippet
            Fixture.assistant Fixture.fresh_process)
  = result (analyze_code Fixture.parse Fixture.service_down
              Fixture.bare_snippet
              (fst (__init__ "key-B" (Some "gpt-3.5-turbo")
                      Fixture.fresh_process))
              (snd (__init__ "key-B" (Some "gpt-3.5-turbo")
                      Fixture.fresh_process)))
  /\ exists req,
       effects (process_after
                  (analyze_code Fixture.parse Fixture.service_up
                     Fixture.bare_snippet Fixture.assistant
                     Fixture.fresh_process))
       = ((effects Fixture.fresh_process
           ++ [Call (openai_api_key Fixture.fresh_process) req])
          ++ match Fixture.service_up
                     (openai_api_key Fixture.fresh_process) req with
             | Returns _ => []
             | Raises e => [Print "Error in AI bug detection: " e]
             end)%list.
Proof.
  destruct (analyze_code_deterministic Fixture.parse Fixture.service_up
              Fixture.service_down Fixture.bare_snippet Fixture.assistant
              (fst (__init__ "key-B" (Some "gpt-3.5-turbo")
                      Fixture.fresh_process))
              Fixture.fresh_process
              (snd (__init__ "key-B" (Some "gpt-3.5-turbo")
                      Fixture.fresh_process)))
    as (Hsame & _ & Heffects).
  split; [exact Hsame|].
  destruct Heffects as (req & _ & Heq).
  - eexists. vm_compute. reflexivity.
  - exists req. exact Heq.
Defined.

(** C7, as stated, fails: on the specification's own scenario with the
    service unreachable, [analyze_code] leaves a request and a printed line
    behind. *)
Lemma analyze_code_effects_counterexample :
  effects Fixture.fresh_process = []
  /\ exists req e,
       effects (process_after
                  (analyze_code Fixture.parse Fixture.service_down
                     Fixture.typed_snippet Fixture.assistant
                     Fixture.fresh_process))
       = [Call None req; Print "Error in AI bug detection: " e].
Proof.
  split; [reflexivity|]. eexists _, _. reflexivity.
Qed.

(** ** Strings *)

Section Strings.

Lemma str_app_nil_r (s : string) : s ++ "" = s.
Proof. induction s as [|c s IH]; cbn; [reflexivity | now f_equal]. Qed.

Lemma str_app_assoc (a b c : string) : (a ++ b) ++ c = a ++ b ++ c.
Proof. induction a as [|x a IH]; cbn; [reflexivity | now f_equal]. Qed.

Lemma str_length_app (a b : string) :
  String.length (a ++ b) = String.length a + String.length b.
Proof. induction a as [|x a IH]; cbn; [reflexivity | now f_equal]. Qed.

Lemma str_app_inv_head (a b c : string) : a ++ b = a ++ c -> b = c.
Proof.
  induction a as [|x a IH]; cbn; [trivial|]. intros [= H]. now apply IH.
Qed.

(** Two ways of cutting one text: the shorter prefix is a prefix of the
    longer one. *)
Lemma str_app_split (pre' pre suf suf' : string) :
  pre ++ suf = pre' ++ suf' ->
  String.length pre' <= String.length pre ->
  exists mid, pre = pre' ++ mid /\ suf' = mid ++ suf.
Proof.
  revert pre. induction pre' as [|x pre' IH]; intros pre Heq Hlen.
  - exists pre. cbn in *. now split.
  - destruct pre as [|y pre]; cbn in Hlen; [lia|].
    cbn in Heq. injection Heq as -> Heq.
    destruct (IH pre Heq) as (mid & -> & ->); [lia|].
    exists mid. now split.
Qed.

Lemma str_app_same_length (pre' pre suf suf' : string) :
  pre ++ suf = pre' ++ suf' ->
  String.length pre' = String.length pre ->
  pre = pre' /\ suf = suf'.
Proof.
  intros Heq Hlen.
  destruct (str_app_split pre' pre suf suf' Heq) as (mid & -> & ->); [lia|].
  rewrite str_length_app in Hlen.
  destruct mid; cbn in Hlen; [|lia].
  now rewrite str_app_nil_r.
Qed.

Lemma strip_prefix_Some (p s r : string) :
  strip_prefix p s = Some r <-> s = p ++ r.
Proof.
  revert s. induction p as [|a p IH]; intros s; cbn.
  - split; [now intros [= ->] | now intros ->].
  - destruct s as [|b s]; [split; discriminate|].
    destruct (Ascii.eqb_spec a b) as [->|Hne].
    + rewrite IH. split; [now intros -> | now intros [= ->]].
    + split; [discriminate | intros [= -> _]; now destruct Hne].
Qed.

Lemma strip_prefix_None (p s : string) :
  strip_prefix p s = None <-> forall r, s <> p ++ r.
Proof.
  split.
  - intros Hnone r Heq. apply strip_prefix_Some in Heq. congruence.
  - intros Hno. destruct (strip_prefix p s) as [r|] eqn:E; [|reflexivity].
    apply strip_prefix_Some in E. now destruct (Hno r).
Qed.

Lemma consumed_app (pre suf : string) : consumed (pre ++ suf) suf = pre.
Proof.
  unfold consumed. rewrite str_length_app.
  replace (String.length pre + String.length suf - String.length suf)
    with (String.length pre) by lia.
  induction pre as [|c pre IH]; cbn.
  - now destruct suf.
  - now f_equal.
Qed.

Lemma first_suffix_Some {A : Type} (k : string -> option A) (s : string)
    (a : A) :
  first_suffix k s = Some a ->
  exists pre suf,
    s = pre ++ suf /\ k suf = Some a
    /\ forall pre' suf',
         s = pre' ++ suf' -> String.length pre' < String.length pre ->
         k suf' = None.
Proof.
  induction s as [|c s IH]; cbn [first_suffix].
  - destruct (k "") eqn:E; [|discriminate]. intros [= ->].
    exists "", "". repeat split; trivial. cbn. intros; lia.
  - destruct (k (String c s)) eqn:E.
    + intros [= ->]. exists "", (String c s). repeat split; trivial.
      cbn. intros; lia.
    + intros H. destruct (IH H) as (pre & suf & -> & Hk & Hmin).
      exists (String c pre), suf. repeat split; trivial.
      intros [|x pre'] suf' Heq Hlen; cbn in Heq.
      * now subst suf'.
      * injection Heq as <- Heq. apply (Hmin pre' suf' Heq).
        cbn in Hlen. lia.
Qed.

Lemma first_suffix_None {A : Type} (k : string -> option A) (s : string) :
  first_suffix k s = None ->
  forall pre suf, s = pre ++ suf -> k suf = None.
Proof.
  induction s as [|c s IH]; cbn [first_suffix].
  - destruct (k "") eqn:E; [discriminate|]. intros _ [|x pre] suf Heq.
    + cbn in Heq. now subst.
    + discriminate.
  - destruct (k (String c s)) eqn:E; [discriminate|].
    intros H [|x pre] suf Heq.
    + cbn in Heq. now subst.
    + injection Heq as <- Heq. now apply (IH H pre).
Qed.

End Strings.

(** ** The pattern of [_extract_code] *)

Lemma match_here_unfold (s0 : string) :
  match_here s0 =
  match strip_prefix "```" s0 with
  | Some s1 =>
      match
        match strip_prefix "python" s1 with
        | Some s2 =>
            match strip_prefix newline s2 with
            | Some s3 => close_fence s0 s3
            | None => None
            end
        | None => None
        end
      with
      | Some m => Some m
      | None =>
          match strip_prefix newline s1 with
          | Some s3 => close_fence s0 s3
          | None => None
          end
      end
  | None => None
  end.
Proof. reflexivity. Qed.

Lemma close_fence_Some (s0 s3 : string) (m : re_found) :
  close_fence s0 s3 = Some m ->
  exists body,
    s3 = body ++ newline ++ "```" ++ found_rest m
    /\ m = mkFound s0 [body] (found_rest m)
    /\ forall body' post',
         s3 = body' ++ newline ++ "```" ++ post' ->
         String.length body <= String.length body'.
Proof.
  unfold close_fence. intros H.
  apply first_suffix_Some in H as (body & suf & -> & Hk & Hmin).
  destruct (strip_prefix (newline ++ "```") suf) as [rest|] eqn:E;
    [|discriminate].
  injection Hk as <-. apply strip_prefix_Some in E. subst suf.
  exists body. cbn [found_rest]. rewrite consumed_app.
  split; [reflexivity|]. split; [reflexivity|].
  intros body' post' Heq.
  destruct (Nat.le_gt_cases (String.length body) (String.length body'))
    as [|Hlt]; [assumption|].
  specialize (Hmin body' _ Heq Hlt). cbn in Hmin. discriminate.
Qed.

Lemma close_fence_None (s0 s3 : string) :
  close_fence s0 s3 = None ->
  forall body post, s3 <> body ++ newline ++ "```" ++ post.
Proof.
  unfold close_fence. intros H body post Heq.
  pose proof (first_suffix_None _ _ H body _ Heq) as Hk. cbn in Hk.
  discriminate.
Qed.

(** A match at the start of [s0] is a block at the start of [s0] with the
    shortest body, and there is one whenever [s0] starts with a block. *)
Lemma match_here_Some (s0 : string) (m : re_found) :
  match_here s0 = Some m ->
  exists tag body,
    (tag = "" \/ tag = "python")
    /\ s0 = "```" ++ tag ++ newline ++ body ++ newline ++ "```" ++ found_rest m
    /\ found_groups m = [body]
    /\ forall tag' body' post',
         (tag' = "" \/ tag' = "python") ->
         s0 = "```" ++ tag' ++ newline ++ body' ++ newline ++ "```" ++ post' ->
         String.length body <= String.length body'.
Proof.
  rewrite match_here_unfold.
  destruct (strip_prefix "```" s0) as [s1|] eqn:E1; [|discriminate].
  apply strip_prefix_Some in E1. subst s0.
  destruct (strip_prefix "python" s1) as [s2|] eqn:E2.
  - apply strip_prefix_Some in E2. subst s1.
    destruct (strip_prefix newline s2) as [s3|] eqn:E3;
      [|cbn; discriminate].
    apply strip_prefix_Some in E3. subst s2.
    destruct (close_fence _ s3) as [m'|] eqn:E4; [|cbn; discriminate].
    intros [= ->].
    apply close_fence_Some in E4 as (body & Hs3 & Hm & Hmin).
    exists "python", body. split; [now right|].
    split; [now rewrite Hs3 at 1|].
    split; [now rewrite Hm|].
    intros tag' body' post' [-> | ->] Heq; cbn in Heq.
    + discriminate.
    + injection Heq as Heq. now apply (Hmin body' post').
  - destruct (strip_prefix newline s1) as [s3|] eqn:E3; [|discriminate].
    apply strip_prefix_Some in E3. subst s1.
    intros E4.
    apply close_fence_Some in E4 as (body & Hs3 & Hm & Hmin).
    exists "", body. split; [now left|].
    split; [now rewrite Hs3 at 1|].
    split; [now rewrite Hm|].
    intros tag' body' post' [-> | ->] Heq; cbn in Heq.
    + injection Heq as Heq. now apply (Hmin body' post').
    + discriminate.
Qed.

Lemma match_here_None (s0 : string) :
  match_here s0 = None ->
  forall tag body post,
    (tag = "" \/ tag = "python") ->
    s0 <> "```" ++ tag ++ newline ++ body ++ newline ++ "```" ++ post.
Proof.
  intros H tag body post Htag Heq. subst s0.
  rewrite match_here_unfold in H.
  set (rest := body ++ newline ++ "```" ++ post) in *.
  destruct Htag as [-> | ->].
  - change (close_fence ("```" ++ "" ++ newline ++ rest) rest = None) in H.
    now apply (close_fence_None _ _ H body post).
  - change (match close_fence ("```" ++ "python" ++ newline ++ rest) rest with
            | Some m => Some m
            | None => None
            end = None) in H.
    destruct (close_fence _ rest) eqn:E; [discriminate|].
    now apply (close_fence_None _ _ E body post).
Qed.

Lemma re_search_from_start (r : regex) (s : string) :
  re_search_from r false s = re_search r s.
Proof. unfold re_search_from, re_search. destruct s; reflexivity. Qed.

Lemma extract_code_search (text : string) :
  _extract_code text =
  match first_suffix match_here text with
  | Some m => nth 0 (found_groups m) ""
  | None => text
  end.
Proof.
  unfold _extract_code, findall.
  replace (2 * String.length text + 2) with (S (2 * String.length text + 1))
    by lia.
  cbn [findall_rounds]. rewrite re_search_from_start.
  change (re_search code_pattern text) with (first_suffix match_here text).
  now destruct (first_suffix match_here text).
Qed.

(** C9, as the code has it: when the text holds an occurrence of the
    pattern (three backticks, nothing or the word python, a line break, a
    body, a line break, three backticks), [_extract_code] returns the body
    of the leftmost occurrence, the shortest body there; when it holds
    none, it returns the text unchanged.  Backticks that close a block
    count as an opening as well, and a block with another language tag is
    not an occurrence. *)
Theorem extract_code_first_pattern_block (text : string) :
  ((exists pre tag body post, pattern_block text pre tag body post) ->
   exists pre tag body post,
     pattern_block text pre tag body post
     /\ _extract_code text = body
     /\ forall pre' tag' body' post',
          pattern_block text pre' tag' body' post' ->
          String.length pre <= String.length pre'
          /\ (String.length pre' = String.length pre ->
              String.length body <= String.length body'))
  /\ ((forall pre tag body post, ~ pattern_block text pre tag body post) ->
      _extract_code text = text).
Proof.
  rewrite extract_code_search.
  destruct (first_suffix match_here text) as [m|] eqn:Hsearch.
  - apply first_suffix_Some in Hsearch as (pre & s0 & Htext & Hm & Hleft).
    apply match_here_Some in Hm as (tag & body & Htag & Hs0 & Hgroups & Hmin).
    assert (Hblock : pattern_block text pre tag body (found_rest m)).
    { split; [|exact Htag]. now rewrite Htext, Hs0. }
    split.
    + intros _. exists pre, tag, body, (found_rest m).
      split; [exact Hblock|]. split; [now rewrite Hgroups|].
      intros pre' tag' body' post' [Htext' Htag'].
      assert (Hle : String.length pre <= String.length pre').
      { destruct (Nat.le_gt_cases (String.length pre) (String.length pre'))
          as [|Hlt]; [assumption|].
        pose proof (Hleft pre' _ Htext' Hlt) as Hnone.
        now destruct (match_here_None _ Hnone tag' body' post' Htag'). }
      split; [exact Hle|].
      intros Hsame. rewrite Htext in Htext'.
      apply str_app_same_length in Htext' as [_ Hs0']; [|exact Hsame].
      now apply (Hmin tag' body' post' Htag').
    + intros Hnone. now destruct (Hnone pre tag body (found_rest m)).
  - split; [|reflexivity].
    intros (pre & tag & body & post & Htext & Htag).
    pose proof (first_suffix_None _ _ Hsearch pre _ Htext) as Hnone.
    now destruct (match_here_None _ Hnone tag body post Htag).
Qed.

Lemma extract_code_first_pattern_block_witness :
  exists pre tag body post,
    pattern_block Fixture.python_answer pre tag body post
    /\ _extract_code Fixture.python_answer = body.
Proof.
  destruct (extract_code_first_pattern_block Fixture.python_answer)
    as [Hsome _].
  destruct Hsome as (pre & tag & body & post & Hblock & Hbody & _).
  - exists ("Here:" ++ newline), "python", "x = 1", (newline ++ "done").
    split; [reflexivity | right; reflexivity].
  - exists pre, tag, body, post. split; assumption.
Defined.

(** C9, as stated, fails: in an answer with a javascript block, a line of
    prose and a second block, the first fenced block holds [a], and
    [_extract_code] returns the prose between the two blocks. *)
Lemma extract_code_fenced_block_counterexample :
  fenced_block Fixture.two_block_answer "" "js" "a"
    (newline ++ "mid" ++ newline
     ++ "```py" ++ newline ++ "b" ++ newline ++ "```")
  /\ _extract_code Fixture.two_block_answer = "mid"
  /\ _extract_code Fixture.two_block_answer <> "a"
  /\ _extract_code Fixture.two_block_answer <> Fixture.two_block_answer.
Proof.
  split; [split; [reflexivity|]|].
  - intros [|x [|y [|z a]]] b; cbn; discriminate.
  - split; [reflexivity|]. split; vm_compute; discriminate.
Qed.

(** ** The scenarios of the specification *)

Example scenario_bare_except :
  result (analyze_code Fixture.parse Fixture.service_up Fixture.bare_snippet
            Fixture.assistant Fixture.fresh_process)
  = Returns [bare_except_report 3].
Proof. reflexivity. Qed.

Example scenario_typed_except :
  result (analyze_code Fixture.parse Fixture.service_up Fixture.typed_snippet
            Fixture.assistant Fixture.fresh_process)
  = Returns [].
Proof. reflexivity. Qed.

Example scenario_walk_order :
  map node_lineno (filter is_bare_except (walk Fixture.nested_tree))
  = [3%Z; 6%Z].
Proof. reflexivity. Qed.

Example scenario_extract_python_block :
  _extract_code Fixture.python_answer = "x = 1".
Proof. reflexivity. Qed.

Example scenario_extract_no_block :
  _extract_code "x = 1" = "x = 1".
Proof. reflexivity. Qed.

(** * Further properties of the code *)

(** ** The order of the walk and of the reports *)

(** The queue discipline of [ast.walk]: the nodes at the front of the queue
    come out in order, and their children wait behind what was queued. *)
Lemma walk_todo_app (front back : list AST) :
  walk_todo (front ++ back)
  = (front ++ walk_todo (back ++ next_level front))%list.
Proof.
  revert back. induction front as [|node front IH]; intros back.
  - cbn. now rewrite app_nil_r.
  - cbn [app]. simp walk_todo. rewrite <- app_assoc, IH.
    unfold next_level. cbn [flat_map]. now rewrite <- app_assoc.
Qed.

Lemma size_positive (t : AST) : 0 < size t.
Proof. destruct t; cbn; lia. Qed.

Lemma forest_size_cons (t : AST) (ts : list AST) :
  forest_size (t :: ts) = size t + forest_size ts.
Proof. reflexivity. Qed.

Lemma forest_size_append (xs ys : list AST) :
  forest_size (xs ++ ys) = forest_size xs + forest_size ys.
Proof. unfold forest_size. now rewrite map_app, list_sum_app. Qed.

Lemma size_node (t : AST) : size t = S (forest_size (iter_child_nodes t)).
Proof.
  destruct t as [lineno [ty|] name body | cls children];
    cbn [size iter_child_nodes app]; rewrite ?forest_size_cons;
    reflexivity.
Qed.

Lemma forest_size_next_level (level : list AST) :
  forest_size level = List.length level + forest_size (next_level level).
Proof.
  induction level as [|t level IH]; [reflexivity|].
  unfold next_level in *. cbn [flat_map List.length].
  rewrite forest_size_cons, forest_size_append, size_node, IH. lia.
Qed.

Lemma walk_todo_levels (n : nat) (level : list AST) :
  forest_size level <= n -> walk_todo level = List.concat (levels n level).
Proof.
  revert level. induction n as [|n IH]; intros level Hn.
  - destruct level as [|t level]; [reflexivity|].
    rewrite forest_size_cons in Hn. pose proof (size_positive t). lia.
  - cbn [levels List.concat].
    rewrite <- (app_nil_r level) at 1. rewrite walk_todo_app. cbn [app].
    f_equal. apply IH.
    rewrite forest_size_next_level in Hn.
    destruct level as [|t level]; cbn [List.length] in Hn; [exact (Nat.le_0_l _) | lia].
Qed.

(** [ast.walk] is breadth first.  The nodes come out level by level:
    the root, then its children left to right, then their children, and so
    on down the tree. *)
Lemma walk_level_order (t : AST) : walk t = List.concat (levels (size t) [t]).
Proof.
  unfold walk. apply walk_todo_levels.
  rewrite forest_size_cons. cbn. lia.
Qed.

Lemma check_nodes_app (xs ys : list AST) :
  check_nodes (xs ++ ys) = (check_nodes xs ++ check_nodes ys)%list.
Proof. rewrite !check_nodes_filter, filter_app, !map_app. reflexivity. Qed.

Lemma check_nodes_concat (ls : list (list AST)) :
  check_nodes (List.concat ls) = flat_map check_nodes ls.
Proof.
  induction ls as [|l ls IH]; [reflexivity|].
  cbn [List.concat flat_map]. now rewrite check_nodes_app, IH.
Qed.

(** X1: the reports of [_ast_analysis] come in the order of the walk: those
    for the bare handlers of one level, left to right, before those of the
    next level.  They are ordered by nesting depth, not by line. *)
Theorem ast_analysis_level_order (t : AST) :
  _ast_analysis t = flat_map check_nodes (levels (size t) [t]).
Proof.
  unfold _ast_analysis. now rewrite walk_level_order, check_nodes_concat.
Qed.

Lemma check_nodes_structural (t : AST) :
  Permutation (_ast_analysis t) (check_nodes (nodes t)).
Proof. apply check_nodes_Permutation, walk_nodes. Qed.

Lemma check_nodes_flat_map (ts : list AST) :
  Permutation (check_nodes (flat_map nodes ts)) (flat_map _ast_analysis ts).
Proof.
  induction ts as [|t ts IH]; [reflexivity|].
  cbn [flat_map]. rewrite check_nodes_app.
  apply Permutation_app; [symmetry; apply check_nodes_structural | exact IH].
Qed.

Lemma check_nodes_cons (node : AST) (order : list AST) :
  check_nodes (node :: order)
  = ((if is_bare_except node then [bare_except_report (node_lineno node)]
      else []) ++ check_nodes order)%list.
Proof.
  rewrite !check_nodes_filter. cbn [filter].
  now destruct (is_bare_except node).
Qed.

(** X2: the findings of a tree are the findings of its parts taken together,
    up to their order: a node that is no bare handler adds nothing to the
    findings of its children, a typed handler adds nothing to those of its
    type expression and body, and a bare handler puts its own report first,
    before the findings of its body. *)
Theorem ast_analysis_compositional :
  (forall cls children,
      Permutation (_ast_analysis (Node cls children))
                  (flat_map _ast_analysis children))
  /\ (forall lineno ty name body,
         Permutation (_ast_analysis (ExceptHandler lineno (Some ty) name body))
                     (_ast_analysis ty ++ flat_map _ast_analysis body))
  /\ (forall lineno name body,
         exists rest,
           _ast_analysis (ExceptHandler lineno None name body)
           = bare_except_report lineno :: rest
           /\ Permutation rest (flat_map _ast_analysis body)).
Proof.
  split; [|split].
  - intros cls children.
    etransitivity; [apply check_nodes_structural|].
    cbn [nodes]. rewrite check_nodes_cons. cbn [is_bare_except app].
    apply check_nodes_flat_map.
  - intros lineno ty name body.
    etransitivity; [apply check_nodes_structural|].
    cbn [nodes]. rewrite check_nodes_cons, check_nodes_app.
    cbn [is_bare_except app].
    apply Permutation_app;
      [symmetry; apply check_nodes_structural | apply check_nodes_flat_map].
  - intros lineno name body.
    exists (check_nodes (walk_todo body)). split.
    + unfold _ast_analysis, walk. simp walk_todo.
      cbn [app iter_child_nodes]. rewrite check_nodes_cons. reflexivity.
    + etransitivity; [|apply check_nodes_flat_map].
      apply check_nodes_Permutation, walk_todo_nodes.
Qed.

(** An inner handler on an earlier line is reported after an outer handler
    on a later line. *)
Example reports_not_in_line_order :
  map line_number
    (_ast_analysis
       (Node "Module"
          [Node "Try"
             [Node "Try" [Node "Pass" [];
                          ExceptHandler 4 None None [Node "Pass" []]];
              ExceptHandler 6 None None [Node "Pass" []]]]))
  = [6%Z; 4%Z].
Proof. reflexivity. Qed.

(** ** What [_extract_code] returns *)

(** The two cases of [_extract_code]: no occurrence of the pattern and the
    text comes back, or the body of an occurrence, which holds no closing
    fence. *)
Lemma extract_code_cases (text : string) :
  (first_suffix match_here text = None /\ _extract_code text = text)
  \/ exists pre tag body post,
       pattern_block text pre tag body post
       /\ _extract_code text = body
       /\ ~ has_closing_fence body.
Proof.
  rewrite extract_code_search.
  destruct (first_suffix match_here text) as [m|] eqn:Hsearch;
    [right | now left].
  apply first_suffix_Some in Hsearch as (pre & s0 & Htext & Hm & _).
  apply match_here_Some in Hm as (tag & body & Htag & Hs0 & Hgroups & Hmin).
  exists pre, tag, body, (found_rest m).
  split; [split; [now rewrite Htext, Hs0 | exact Htag]|].
  split; [now rewrite Hgroups|].
  intros (a & b & Hbody).
  specialize (Hmin tag a (b ++ newline ++ "```" ++ found_rest m) Htag).
  assert (String.length body <= String.length a) as Hle.
  { apply Hmin. rewrite Hs0, Hbody. rewrite !str_app_assoc. reflexivity. }
  rewrite Hbody, !str_length_app in Hle. cbn in Hle. lia.
Qed.

(** X3: what [_extract_code] returns is a contiguous part of the text it
    was given, so it is never longer than the text. *)
Theorem extract_code_part_of_text (text : string) :
  (exists before after, text = before ++ _extract_code text ++ after)
  /\ String.length (_extract_code text) <= String.length text.
Proof.
  assert (exists before after, text = before ++ _extract_code text ++ after)
    as (before & after & Hpart).
  { destruct (extract_code_cases text)
      as [[_ ->] | (pre & tag & body & post & [Htext _] & -> & _)].
    - exists "", "". cbn. now rewrite str_app_nil_r.
    - exists (pre ++ "```" ++ tag ++ newline), (newline ++ "```" ++ post).
      rewrite Htext, !str_app_assoc. reflexivity. }
  split; [now exists before, after|].
  rewrite Hpart at 2. rewrite !str_length_app. lia.
Qed.

(** X4: a text without a closing fence (no line break followed by three
    backticks) comes back unchanged: a plain answer, an answer on one line,
    a block that is opened and never closed. *)
Theorem extract_code_without_closing_fence (text : string) :
  ~ has_closing_fence text -> _extract_code text = text.
Proof.
  intros Hnone.
  destruct (extract_code_cases text)
    as [[_ H] | (pre & tag & body & post & [Htext _] & _)]; [exact H|].
  destruct Hnone.
  exists (pre ++ "```" ++ tag ++ newline ++ body), post.
  rewrite Htext, !str_app_assoc. reflexivity.
Qed.

Lemma extract_code_without_closing_fence_witness :
  _extract_code ("```python" ++ newline ++ "x = 1")
  = "```python" ++ newline ++ "x = 1".
Proof.
  apply extract_code_without_closing_fence.
  intros (a & b & H).
  repeat (destruct a as [|? a]; cbn in H; [discriminate H|];
          injection H as ? H).
  destruct a; discriminate H.
Defined.

(** X5: extraction is idempotent: what it returns holds no block of its
    own, so extracting again changes nothing. *)
Theorem extract_code_idempotent (text : string) :
  _extract_code (_extract_code text) = _extract_code text.
Proof.
  destruct (extract_code_cases text)
    as [[_ H] | (pre & tag & body & post & _ & -> & Hnone)].
  - now rewrite !H.
  - destruct (extract_code_cases body)
      as [[_ H] | (pre' & tag' & body' & post' & [Hbody _] & _)];
      [exact H|].
    destruct Hnone.
    exists (pre' ++ "```" ++ tag' ++ newline ++ body'), post'.
    rewrite Hbody, !str_app_assoc. reflexivity.
Qed.

Lemma first_suffix_here {A : Type} (k : string -> option A) (s : string)
    (a : A) :
  k s = Some a -> first_suffix k s = Some a.
Proof. intros H. destruct s; cbn [first_suffix]; now rewrite H. Qed.

Lemma first_suffix_skip_prose (pre rest : string) :
  no_backtick pre = true ->
  first_suffix match_here (pre ++ rest) = first_suffix match_here rest.
Proof.
  induction pre as [|c pre IH]; [reflexivity|].
  cbn [no_backtick]. intros H. apply andb_prop in H as [Hc Hpre].
  cbn [append first_suffix]. rewrite match_here_unfold.
  cbn [strip_prefix].
  destruct (Ascii.eqb_spec "`"%char c) as [<-|_]; [discriminate Hc|].
  now apply IH.
Qed.

(** A closing fence found where another decomposition has its body: the
    shorter body is the whole body unless the longer one holds a fence. *)
Lemma closing_fence_unique (body body' post post' : string) :
  body' ++ newline ++ "```" ++ post' = body ++ newline ++ "```" ++ post ->
  String.length body' <= String.length body ->
  ~ has_closing_fence body ->
  body' = body.
Proof.
  intros Heq Hle Hnone. symmetry in Heq.
  destruct (str_app_split body' body _ _ Heq Hle) as (mid & Hbody & Hmid).
  destruct mid as [|c1 [|c2 [|c3 [|c4 mid]]]]; cbn in Hmid.
  - now rewrite Hbody, str_app_nil_r.
  - discriminate Hmid.
  - discriminate Hmid.
  - discriminate Hmid.
  - injection Hmid as <- <- <- <- _. destruct Hnone.
    exists body', mid. exact Hbody.
Qed.

(** X6: round trip.  A body without a closing fence, put between an opening
    fence (bare or tagged python) and a closing fence, after prose without
    backticks and before anything at all, is what [_extract_code] gives
    back: later blocks and trailing text are ignored. *)
Theorem extract_code_round_trip (pre tag body post : string) :
  no_backtick pre = true ->
  tag = "" \/ tag = "python" ->
  ~ has_closing_fence body ->
  _extract_code
    (pre ++ "```" ++ tag ++ newline ++ body ++ newline ++ "```" ++ post)
  = body.
Proof.
  intros Hpre Htag Hbody.
  rewrite extract_code_search, first_suffix_skip_prose by exact Hpre.
  set (s0 := "```" ++ tag ++ newline ++ body ++ newline ++ "```" ++ post).
  destruct (match_here s0) as [m|] eqn:Hm.
  - rewrite (first_suffix_here _ _ _ Hm).
    apply match_here_Some in Hm
      as (tag' & body' & Htag' & Hs0 & -> & Hmin).
    cbn [nth].
    pose proof (Hmin tag body post Htag eq_refl) as Hle.
    unfold s0 in Hs0. apply str_app_inv_head in Hs0.
    apply (closing_fence_unique body body' post (found_rest m));
      [|exact Hle | exact Hbody].
    destruct Htag as [-> | ->], Htag' as [-> | ->].
    + apply (str_app_inv_head ""), (str_app_inv_head newline) in Hs0.
      now symmetry.
    + unfold newline in Hs0. discriminate Hs0.
    + unfold newline in Hs0. discriminate Hs0.
    + apply (str_app_inv_head "python"), (str_app_inv_head newline) in Hs0.
      now symmetry.
  - now destruct (match_here_None _ Hm tag body post Htag).
Qed.

Lemma extract_code_round_trip_witness :
  _extract_code
    (("Refactored:" ++ newline) ++ "```" ++ "python" ++ newline
     ++ "return a + b" ++ newline ++ "```"
     ++ (newline ++ "```" ++ newline ++ "other" ++ newline ++ "```"))
  = "return a + b".
Proof.
  apply extract_code_round_trip.
  - reflexivity.
  - right. reflexivity.
  - intros (a & b & H).
    repeat (destruct a as [|? a]; cbn in H; [discriminate H|];
            injection H as ? H).
    destruct a; discriminate H.
Defined.

(** ** What the capabilities read, send and return *)

Lemma the_request_model (self1 self2 : AICodeAssistant)
    (system prompt : string) (temperature : Q) (max_tokens : Z) :
  model self1 = model self2 ->
  the_request self1 system prompt temperature max_tokens
  = the_request self2 system prompt temperature max_tokens.
Proof. unfold the_request. now intros ->. Qed.

Ltac run_both service H :=
  unfold same_run, try_except, bind; rewrite !create_run;
  rewrite (the_request_model _ _ _ _ _ _ H);
  destruct (service _ _) as [[|content r]|e];
  cbn; split; reflexivity.

(** X7: the [api_key] field of the object is never read after construction.
    Two objects with the same model behave alike in every capability: same
    outcome, same requests under the process-wide credential, same printed
    lines. *)
Theorem api_key_field_unused
    (ast_parse : string -> outcome AST)
    (ChatCompletion_create : option string -> request -> outcome response)
    (self1 self2 : AICodeAssistant) (p : process)
    (code_context : string) (max_suggestions : option Z)
    (code : string) (style : option string) :
  model self1 = model self2 ->
  same_run (complete_code ChatCompletion_create code_context max_suggestions
              self1 p)
           (complete_code ChatCompletion_create code_context max_suggestions
              self2 p)
  /\ same_run (analyze_code ast_parse ChatCompletion_create code self1 p)
              (analyze_code ast_parse ChatCompletion_create code self2 p)
  /\ same_run (refactor ChatCompletion_create code style self1 p)
              (refactor ChatCompletion_create code style self2 p)
  /\ same_run (generate_documentation ChatCompletion_create code self1 p)
              (generate_documentation ChatCompletion_create code self2 p)
  /\ same_run (explain_code ChatCompletion_create code self1 p)
              (explain_code ChatCompletion_create code self2 p).
Proof.
  intros H.
  split.
  { unfold complete_code, lift, same_run, bind. cbv beta.
    destruct (str_int _) as [shown|e]; [|split; reflexivity].
    run_both ChatCompletion_create H. }
  split.
  { unfold analyze_code, _ai_bug_detection, try_except, bind, lift, ret,
      raise.
    destruct (ast_parse code) as [tree | [lineno msg | cls text]];
      cbn [is_SyntaxError]; try (split; reflexivity);
      run_both ChatCompletion_create H. }
  split; [unfold refactor; run_both ChatCompletion_create H|].
  split; [unfold generate_documentation; run_both ChatCompletion_create H|].
  unfold explain_code; run_both ChatCompletion_create H.
Qed.

Lemma api_key_field_unused_witness :
  same_run
    (explain_code Fixture.service_up "x = 1"
       {| api_key := "key-A"; model := "gpt-4" |} Fixture.fresh_process)
    (explain_code Fixture.service_up "x = 1"
       {| api_key := "key-B"; model := "gpt-4" |} Fixture.fresh_process).
Proof.
  destruct (api_key_field_unused Fixture.parse Fixture.service_up
              {| api_key := "key-A"; model := "gpt-4" |}
              {| api_key := "key-B"; model := "gpt-4" |}
              Fixture.fresh_process "" None "x = 1" None)
    as (_ & _ & _ & _ & H); [reflexivity | exact H].
Defined.

Lemma guarded_run_answer {A : Type}
    (ChatCompletion_create : option string -> request -> outcome response)
    prefix (f : string -> A) fallback self p r (choices : response) :
  (forall credential req, ChatCompletion_create credential req
                          = Returns choices) ->
  guarded_run ChatCompletion_create prefix f fallback self p r ->
  exists req,
    req_model req = model self
    /\ r = match choices with
           | content :: _ => (Returns (f content), self, called p req [])
           | [] => (Returns fallback, self,
                    called p req [Print prefix no_choice])
           end.
Proof.
  intros Hanswer (req & Hmodel & H). rewrite Hanswer in H.
  exists req. split; [exact Hmodel|]. now destruct choices.
Qed.

(** X8: when the service answers, [generate_documentation] and
    [explain_code] return the content of the first choice as it is,
    [refactor] returns what [_extract_code] makes of it, the other choices
    are ignored, and nothing is printed: the process gains the one request
    and no more. *)
Theorem capabilities_relay_first_choice
    (ChatCompletion_create : option string -> request -> outcome response)
    (self : AICodeAssistant) (p : process)
    (code : string) (style : option string)
    (content : string) (others : list string) :
  (forall credential req,
      ChatCompletion_create credential req = Returns (content :: others)) ->
  (exists req,
      refactor ChatCompletion_create code style self p
      = (Returns (_extract_code content), self, called p req []))
  /\ (exists req,
         generate_documentation ChatCompletion_create code self p
         = (Returns content, self, called p req []))
  /\ (exists req,
         explain_code ChatCompletion_create code self p
         = (Returns content, self, called p req [])).
Proof.
  intros Hanswer.
  split; [|split].
  - destruct (guarded_run_answer _ _ _ _ _ _ _ _ Hanswer
                (refactor_run ChatCompletion_create code style self p))
      as (req & _ & H). now exists req.
  - destruct (guarded_run_answer _ _ _ _ _ _ _ _ Hanswer
                (generate_documentation_run ChatCompletion_create code self p))
      as (req & _ & H). now exists req.
  - destruct (guarded_run_answer _ _ _ _ _ _ _ _ Hanswer
                (explain_code_run ChatCompletion_create code self p))
      as (req & _ & H). now exists req.
Qed.

Lemma capabilities_relay_first_choice_witness :
  exists req,
    refactor (fun _ _ => Returns [Fixture.python_answer; "second choice"])
      "x=1" None Fixture.assistant Fixture.fresh_process
    = (Returns "x = 1", Fixture.assistant,
       called Fixture.fresh_process req []).
Proof.
  destruct (capabilities_relay_first_choice
              (fun _ _ => Returns [Fixture.python_answer; "second choice"])
              Fixture.assistant Fixture.fresh_process "x=1" None
              Fixture.python_answer ["second choice"])
    as ((req & H) & _); [reflexivity|].
  exists req. exact H.
Defined.

(** X9: when the service answers with an empty list of choices, reading
    the first choice raises [IndexError] inside the guarded block; every
    capability takes its fallback (the empty list, the unmodified code, the
    empty text) and prints one line naming that error.  For [complete_code]
    the number of suggestions must be one it can write into its prompt. *)
Theorem capabilities_without_choices
    (ChatCompletion_create : option string -> request -> outcome response)
    (self : AICodeAssistant) (p : process)
    (code_context : string) (max_suggestions : option Z)
    (code : string) (style : option string) :
  (forall credential req, ChatCompletion_create credential req = Returns []) ->
  printable (default 3%Z max_suggestions) ->
  (exists req,
      complete_code ChatCompletion_create code_context max_suggestions self p
      = (Returns [], self,
         called p req [Print "Error generating code completion: " no_choice]))
  /\ (exists req,
         refactor ChatCompletion_create code style self p
         = (Returns code, self,
            called p req [Print "Error refactoring code: " no_choice]))
  /\ (exists req,
         generate_documentation ChatCompletion_create code self p
         = (Returns "", self,
            called p req [Print "Error generating documentation: " no_choice]))
  /\ (exists req,
         explain_code ChatCompletion_create code self p
         = (Returns "", self,
            called p req [Print "Error explaining code: " no_choice])).
Proof.
  intros Hanswer Hcount.
  split; [|split; [|split]].
  - destruct (guarded_run_answer _ _ _ _ _ _ _ _ Hanswer
                (complete_code_run ChatCompletion_create code_context
                   max_suggestions self p Hcount))
      as (req & _ & H). now exists req.
  - destruct (guarded_run_answer _ _ _ _ _ _ _ _ Hanswer
                (refactor_run ChatCompletion_create code style self p))
      as (req & _ & H). now exists req.
  - destruct (guarded_run_answer _ _ _ _ _ _ _ _ Hanswer
                (generate_documentation_run ChatCompletion_create code self p))
      as (req & _ & H). now exists req.
  - destruct (guarded_run_answer _ _ _ _ _ _ _ _ Hanswer
                (explain_code_run ChatCompletion_create code self p))
      as (req & _ & H). now exists req.
Qed.

Lemma capabilities_without_choices_witness :
  exists req,
    refactor (fun _ _ => Returns []) "x=1" None Fixture.assistant
      Fixture.fresh_process
    = (Returns "x=1", Fixture.assistant,
       called Fixture.fresh_process req
         [Print "Error refactoring code: " no_choice]).
Proof.
  destruct (capabilities_without_choices (fun _ _ => Returns [])
              Fixture.assistant Fixture.fresh_process "" None "x=1" None)
    as (_ & (req & H) & _);
    [reflexivity | unfold printable; vm_compute; reflexivity |].
  exists req. exact H.
Defined.

Lemma ai_bug_detection_request
    (ChatCompletion_create : option string -> request -> outcome response)
    (code : string) (self : AICodeAssistant) (p : process) :
  exists more,
    _ai_bug_detection ChatCompletion_create code self p
    = (Returns [], self,
       called p
         (the_request self "You are a security and code quality expert."
            (bug_detection_prompt code) (3 # 10)%Q 500%Z) more)
    /\ (more = []
        \/ exists e, more = [Print "Error in AI bug detection: " e]).
Proof.
  unfold _ai_bug_detection, try_except, bind. rewrite create_run.
  fold (bug_detection_prompt code).
  destruct (ChatCompletion_create _ _) as [r|e].
  - exists []. split; [reflexivity | now left].
  - exists [Print "Error in AI bug detection: " e]. split; [|right; eauto].
    unfold is_Exception, print, emit, ret, called.
    cbn [openai_api_key effects]. now rewrite app_nil_r.
Qed.

Lemma bug_detection_prompt_holds_code (code : string) :
  exists before after, bug_detection_prompt code = before ++ code ++ after.
Proof.
  exists ("Analyze this code for bugs, security issues, and problems:"
          ++ newline ++ "        " ++ newline),
         (newline ++ newline
          ++ "List any issues found with severity and line numbers.").
  unfold bug_detection_prompt. rewrite !str_app_assoc. reflexivity.
Qed.

(** X10: a snippet that does not parse is sent to the service all the
    same.  After a [SyntaxError], [analyze_code] goes on to the AI part: one
    request under the process-wide credential with the model of the object,
    whose user message holds the snippet verbatim. *)
Theorem analyze_code_sends_unparsed_snippet
    (ast_parse : string -> outcome AST)
    (ChatCompletion_create : option string -> request -> outcome response)
    (code : string) (lineno : option Z) (msg : string)
    (self : AICodeAssistant) (p : process) :
  ast_parse code = Raises (SyntaxError lineno msg) ->
  exists req more before after,
    effects (process_after
               (analyze_code ast_parse ChatCompletion_create code self p))
    = ((effects p ++ [Call (openai_api_key p) req]) ++ more)%list
    /\ req_model req = model self
    /\ req_messages req
       = [("system", "You are a security and code quality expert.");
          ("user", before ++ code ++ after)]
    /\ (forall credential r, ~ In (Call credential r) more).
Proof.
  intros Hparse.
  destruct (ai_bug_detection_request ChatCompletion_create code self p)
    as (more & Hrun & Hmore).
  destruct (bug_detection_prompt_holds_code code) as (before & after & Hp).
  exists (the_request self "You are a security and code quality expert."
            (bug_detection_prompt code) (3 # 10)%Q 500%Z),
         more, before, after.
  split.
  { unfold analyze_code, try_except, bind, lift, ret.
    rewrite Hparse. cbn [is_SyntaxError]. rewrite Hrun. reflexivity. }
  split; [reflexivity|]. split; [cbn [the_request req_messages]; now rewrite Hp|].
  intros credential r Hin.
  destruct Hmore as [-> | [e ->]]; [destruct Hin|].
  destruct Hin as [H|[]]. discriminate H.
Qed.

Lemma analyze_code_sends_unparsed_snippet_witness :
  exists req more before after,
    effects (process_after
               (analyze_code Fixture.parse Fixture.service_up
                  Fixture.malformed_snippet Fixture.assistant
                  Fixture.fresh_process))
    = (([] ++ [Call None req]) ++ more)%list
    /\ req_messages req
       = [("system", "You are a security and code quality expert.");
          ("user", before ++ "def f(:" ++ after)].
Proof.
  destruct (analyze_code_sends_unparsed_snippet Fixture.parse
              Fixture.service_up Fixture.malformed_snippet (Some 1%Z)
              "invalid syntax" Fixture.assistant Fixture.fresh_process)
    as (req & more & before & after & Heff & _ & Hmsg & _); [reflexivity|].
  exists req, more, before, after. split; assumption.
Defined.

(** X11: when the parser raises anything but [SyntaxError], [analyze_code]
    passes that very exception on and has done nothing else: no request
    went out, no line was printed, the object is as it was. *)
Theorem analyze_code_passes_parser_error
    (ast_parse : string -> outcome AST)
    (ChatCompletion_create : option string -> request -> outcome response)
    (code cls text : string) (self : AICodeAssistant) (p : process) :
  ast_parse code = Raises (OtherException cls text) ->
  analyze_code ast_parse ChatCompletion_create code self p
  = (Raises (OtherException cls text), self, p).
Proof.
  intros Hparse.
  unfold analyze_code, try_except, bind, lift, ret, raise.
  rewrite Hparse. reflexivity.
Qed.

Lemma analyze_code_passes_parser_error_witness :
  analyze_code Fixture.parse Fixture.service_up Fixture.nul Fixture.assistant
    Fixture.fresh_process
  = (Raises (OtherException "ValueError"
               "source code string cannot contain null bytes"),
     Fixture.assistant, Fixture.fresh_process).
Proof.
  apply analyze_code_passes_parser_error. reflexivity.
Defined.

(** ** The scan of [re.findall] *)

Lemma is_suffix_refl (s : string) : is_suffix s s.
Proof. now exists "". Qed.

Lemma is_suffix_trans (a b c : string) :
  is_suffix a b -> is_suffix b c -> is_suffix a c.
Proof.
  intros [p ->] [q ->]. exists (q ++ p). now rewrite str_app_assoc.
Qed.

Lemma is_suffix_length (s' s : string) :
  is_suffix s' s -> String.length s' <= String.length s.
Proof. intros [pre ->]. rewrite str_length_app. lia. Qed.

(** A match hands its continuation a suffix of the text: the matcher only
    moves forward. *)
Lemma re_match_suffix {A : Type} (r : regex) :
  forall (s : string) (groups : list string)
         (k : string -> list string -> option A) (a : A),
    re_match r s groups k = Some a ->
    exists s' groups', is_suffix s' s /\ k s' groups' = Some a.
Proof.
  induction r as [p | r1 IH1 r2 IH2 | r IH | | r IH];
    intros s groups k a H; cbn [re_match] in H.
  - destruct (strip_prefix p s) as [s'|] eqn:E; [|discriminate].
    apply strip_prefix_Some in E. exists s', groups.
    split; [now exists p | exact H].
  - apply IH1 in H as (s1 & g1 & Hs1 & H).
    apply IH2 in H as (s2 & g2 & Hs2 & H).
    exists s2, g2. split; [eapply is_suffix_trans; eassumption | exact H].
  - destruct (re_match r s groups k) as [a'|] eqn:E.
    + injection H as ->. now apply IH in E.
    + exists s, groups. split; [apply is_suffix_refl | exact H].
  - apply first_suffix_Some in H as (pre & suf & -> & H & _).
    exists suf, groups. split; [now exists pre | exact H].
  - apply IH in H as (s' & g' & Hs' & H). eauto.
Qed.

Lemma re_search_suffix (r : regex) (s : string) (m : re_found) :
  re_search r s = Some m ->
  is_suffix (found_at m) s /\ is_suffix (found_rest m) (found_at m).
Proof.
  unfold re_search. intros H.
  apply first_suffix_Some in H as (pre & s0 & -> & H & _).
  apply re_match_suffix in H as (s' & g' & Hs' & [= <-]).
  split; [now exists pre | exact Hs'].
Qed.

Lemma re_search_from_suffix (r : regex) (must_advance : bool) (s : string)
    (m : re_found) :
  re_search_from r must_advance s = Some m ->
  is_suffix (found_at m) s
  /\ is_suffix (found_rest m) (found_at m)
  /\ (must_advance = true ->
      String.length (found_at m) = String.length s ->
      String.length (found_rest m) <> String.length s).
Proof.
  unfold re_search_from.
  destruct (re_match r s [] _) as [m0|] eqn:E.
  - intros [= ->].
    apply re_match_suffix in E as (s' & g' & Hs' & E).
    destruct (must_advance
              && Nat.eqb (String.length s') (String.length s)) eqn:Hadv;
      [discriminate E|].
    injection E as <-. cbn [found_at found_rest].
    split; [apply is_suffix_refl|]. split; [exact Hs'|].
    intros -> _. cbn [andb] in Hadv. now apply Nat.eqb_neq.
  - destruct s as [|c s]; [discriminate|]. intros H.
    apply re_search_suffix in H as [Hat Hrest].
    split; [|split; [exact Hrest|]].
    + destruct Hat as [pre ->]. now exists (String c pre).
    + intros _ Hlen. apply is_suffix_length in Hat.
      cbn [String.length] in Hlen. lia.
Qed.

(** The scan of [findall] ends: a round either shortens the text or follows
    an empty match, so beyond the rounds [findall] allows no further round
    finds anything. *)
Lemma findall_rounds_enough (r : regex) (n : nat) :
  forall (n' : nat) (must_advance : bool) (s : string),
    2 * String.length s + (if must_advance then 0 else 1) < n ->
    2 * String.length s + (if must_advance then 0 else 1) < n' ->
    findall_rounds n r must_advance s = findall_rounds n' r must_advance s.
Proof.
  induction n as [|n IH]; intros n' must_advance s Hn Hn'; [lia|].
  destruct n' as [|n']; [lia|]. cbn [findall_rounds].
  destruct (re_search_from r must_advance s) as [m|] eqn:Hsearch;
    [|reflexivity].
  apply re_search_from_suffix in Hsearch as (Hat & Hrest & Hadv).
  apply is_suffix_length in Hat, Hrest. f_equal.
  destruct (Nat.eqb_spec (String.length (found_rest m))
                         (String.length (found_at m))) as [Heq|Hne].
  - apply IH.
    + destruct must_advance; [|lia].
      destruct (Nat.eq_dec (String.length (found_at m)) (String.length s))
        as [Hsame|]; [|lia].
      specialize (Hadv eq_refl Hsame). lia.
    + destruct must_advance; [|lia].
      destruct (Nat.eq_dec (String.length (found_at m)) (String.length s))
        as [Hsame|]; [|lia].
      specialize (Hadv eq_refl Hsame). lia.
  - apply IH; destruct must_advance; lia.
Qed.

(** ** The example driver *)

Section GuardedShapes.

Variable ChatCompletion_create : option string -> request -> outcome response.

(** The two shapes the guarded capabilities have. *)
Lemma guarded_shape_map {A : Type} (system prompt : string) (temperature : Q)
    (max_tokens : Z) (f : string -> A) (prefix : string) (fallback : A)
    (self : AICodeAssistant) (p : process) :
  try_except
    (bind (create ChatCompletion_create system prompt temperature max_tokens)
       (fun response =>
          bind (first_content response) (fun content => ret (f content))))
    is_Exception
    (fun e => bind (print prefix e) (fun _ => ret fallback)) self p
  = match ChatCompletion_create (openai_api_key p)
            (the_request self system prompt temperature max_tokens) with
    | Returns (content :: _) =>
        (Returns (f content), self,
         called p (the_request self system prompt temperature max_tokens) [])
    | Returns [] =>
        (Returns fallback, self,
         called p (the_request self system prompt temperature max_tokens)
           [Print prefix no_choice])
    | Raises e =>
        (Returns fallback, self,
         called p (the_request self system prompt temperature max_tokens)
           [Print prefix e])
    end.
Proof.
  unfold try_except, bind. rewrite create_run.
  destruct (ChatCompletion_create _ _) as [[|content r]|e];
    unfold first_content, raise, ret, is_Exception, print, emit, called,
      no_choice;
    cbn [openai_api_key effects]; rewrite ?app_nil_r; reflexivity.
Qed.

Lemma guarded_shape_content (system prompt : string) (temperature : Q)
    (max_tokens : Z) (prefix : string) (fallback : string)
    (self : AICodeAssistant) (p : process) :
  try_except
    (bind (create ChatCompletion_create system prompt temperature max_tokens)
       first_content)
    is_Exception
    (fun e => bind (print prefix e) (fun _ => ret fallback)) self p
  = match ChatCompletion_create (openai_api_key p)
            (the_request self system prompt temperature max_tokens) with
    | Returns (content :: _) =>
        (Returns content, self,
         called p (the_request self system prompt temperature max_tokens) [])
    | Returns [] =>
        (Returns fallback, self,
         called p (the_request self system prompt temperature max_tokens)
           [Print prefix no_choice])
    | Raises e =>
        (Returns fallback, self,
         called p (the_request self system prompt temperature max_tokens)
           [Print prefix e])
    end.
Proof.
  unfold try_except, bind. rewrite create_run.
  destruct (ChatCompletion_create _ _) as [[|content r]|e];
    unfold first_content, raise, ret, is_Exception, print, emit, called,
      no_choice;
    cbn [openai_api_key effects]; rewrite ?app_nil_r; reflexivity.
Qed.

Lemma no_request_nil : no_request [].
Proof. intros credential req []. Qed.

Lemma no_request_print prefix e : no_request [Print prefix e].
Proof. intros credential req [H|[]]. discriminate H. Qed.

Ltac answers_one_from shape :=
  unfold answers_one; rewrite shape;
  match goal with
  | |- context [ChatCompletion_create (openai_api_key _) ?req] => exists req
  end;
  destruct (ChatCompletion_create _ _) as [[|content r]|e];
  eexists; (split; [reflexivity|]); (split; [reflexivity|]);
  (split; [reflexivity|]);
  auto using no_request_nil, no_request_print.

Lemma complete_code_answers code_context max_suggestions self p :
  printable (default 3%Z max_suggestions) ->
  answers_one ChatCompletion_create
    "You are an expert programming assistant." (fun _ => []) []
    (complete_code ChatCompletion_create code_context max_suggestions self p)
    self p.
Proof.
  intros H. unfold complete_code, bind at 1, lift.
  rewrite (str_int_printable _ H). cbv zeta.
  answers_one_from @guarded_shape_map.
Qed.

Lemma refactor_answers code style self p :
  answers_one ChatCompletion_create "You are a code refactoring expert."
    _extract_code code
    (refactor ChatCompletion_create code style self p) self p.
Proof. unfold refactor. cbv zeta. answers_one_from @guarded_shape_map. Qed.

Lemma explain_code_answers code self p :
  answers_one ChatCompletion_create "You are a patient coding instructor."
    (fun content => content) ""
    (explain_code ChatCompletion_create code self p) self p.
Proof.
  unfold explain_code. cbv zeta. answers_one_from guarded_shape_content.
Qed.

Lemma generate_documentation_answers code self p :
  answers_one ChatCompletion_create
    "You are a technical documentation expert." (fun content => content) ""
    (generate_documentation ChatCompletion_create code self p) self p.
Proof.
  unfold generate_documentation. cbv zeta.
  answers_one_from guarded_shape_content.
Qed.

End GuardedShapes.

Lemma analyze_code_sends
    (ast_parse : string -> outcome AST)
    (ChatCompletion_create : option string -> request -> outcome response)
    (code : string) (bugs : list BugReport) (self : AICodeAssistant)
    (p : process) :
  static_outcome (ast_parse code) = Returns bugs ->
  exists req more,
    analyze_code ast_parse ChatCompletion_create code self p
    = (Returns bugs, self, called p req more)
    /\ req_model req = model self
    /\ system_of req = "You are a security and code quality expert."
    /\ no_request more.
Proof.
  intros Hstatic.
  destruct (ai_bug_detection_request ChatCompletion_create code self p)
    as (more & Hrun & Hmore).
  eexists _, more. split.
  - unfold analyze_code, try_except, bind, lift, ret.
    destruct (ast_parse code) as [tree | [lineno msg | cls text]];
      cbn [static_outcome] in Hstatic; [| |discriminate Hstatic];
      injection Hstatic as <-; cbn [is_SyntaxError]; rewrite Hrun;
      cbn [app]; rewrite ?app_nil_r; reflexivity.
  - split; [reflexivity|]. split; [reflexivity|].
    destruct Hmore as [-> | [e ->]];
      auto using no_request_nil, no_request_print.
Qed.

Lemma skipn_all_app {A : Type} (xs ys : list A) :
  skipn (List.length xs) (xs ++ ys) = ys.
Proof. induction xs as [|x xs IH]; [reflexivity | exact IH]. Qed.

Lemma invoke_called {A : Type} (m : M A) (self self' : AICodeAssistant)
    (v : A) (req : request) (more : list event) (p : process)
    (t : list output) :
  m self p = (Returns v, self', called p req more) ->
  invoke m self p t
  = (Returns (v, self'), called p req more,
     (t ++ Effect (Call (openai_api_key p) req) :: map Effect more)%list).
Proof.
  intros H. unfold invoke. rewrite H. cbn [called effects].
  rewrite <- app_assoc, skipn_all_app. reflexivity.
Qed.

Lemma bug_line_printable (bug : BugReport) :
  printable (line_number bug) -> bug_line bug = Returns (bug_line_shown bug).
Proof.
  intros H. unfold bug_line, bug_line_shown.
  now rewrite (str_int_printable _ H).
Qed.

Lemma for_each_bug_lines (bugs : list BugReport) (p : process)
    (t : list output) :
  Forall (fun bug => printable (line_number bug)) bugs ->
  for_each bugs
    (fun bug => script_bind (script_lift (bug_line bug)) (fun line => say line))
    p t
  = (Returns tt, p, (t ++ map Line (map bug_line_shown bugs))%list).
Proof.
  intros H. revert t.
  induction H as [|bug bugs Hbug _ IH]; intros t; cbn [for_each map].
  - unfold script_ret. now rewrite app_nil_r.
  - unfold script_bind at 1. unfold script_bind at 1, script_lift.
    rewrite (bug_line_printable _ Hbug). unfold say at 1.
    rewrite IH, <- app_assoc. reflexivity.
Qed.

Lemma answer_or_const {A : Type} (v : A) (o : outcome response) :
  answer_or (fun _ => v) v o = v.
Proof. now destruct o as [[|content r]|e]. Qed.

Lemma printable_0 : printable 0.
Proof. unfold printable. cbn [Z.abs]. now apply Z.pow_pos_nonneg. Qed.

(** The findings of a parser's outcome carry printable lines when the
    parser reports only such lines. *)
Lemma static_outcome_printable (o : outcome AST) (bugs : list BugReport) :
  lines_printable o ->
  static_outcome o = Returns bugs ->
  Forall (fun bug => printable (line_number bug)) bugs.
Proof.
  intros Hlines.
  destruct o as [tree | [lineno msg | cls text]];
    cbn [static_outcome lines_printable] in *; intros [= <-].
  - apply Forall_forall. intros b Hb.
    unfold _ast_analysis in Hb. rewrite check_nodes_filter, map_map in Hb.
    apply in_map_iff in Hb as (node & <- & Hnode).
    apply filter_In in Hnode as [Hin Hbare]. cbn [line_number bare_except_report].
    destruct node as [l [ty|] nm body | c ch]; try discriminate Hbare.
    cbn [node_lineno]. apply (Hlines l None nm body).
    eapply Permutation_in; [apply walk_nodes | exact Hin].
  - constructor; [|constructor]. cbn [line_number].
    rewrite lineno_or_0_spec.
    destruct lineno; [exact Hlines | exact printable_0].
Qed.

Lemma requests_of_app (t1 t2 : list output) :
  requests_of (t1 ++ t2) = (requests_of t1 ++ requests_of t2)%list.
Proof. apply flat_map_app. Qed.

Lemma lines_of_app (t1 t2 : list output) :
  lines_of (t1 ++ t2) = (lines_of t1 ++ lines_of t2)%list.
Proof. apply flat_map_app. Qed.

Lemma requests_of_lines (ls : list string) : requests_of (map Line ls) = [].
Proof. induction ls as [|l ls IH]; [reflexivity | exact IH]. Qed.

Lemma lines_of_lines (ls : list string) : lines_of (map Line ls) = ls.
Proof.
  induction ls as [|l ls IH]; [reflexivity|]. cbn. now f_equal.
Qed.

Lemma requests_of_effects (evs : list event) :
  no_request evs -> requests_of (map Effect evs) = [].
Proof.
  induction evs as [|ev evs IH]; intros H; [reflexivity|].
  cbn [map requests_of flat_map].
  destruct ev as [credential req | prefix e].
  - destruct (H credential req). now left.
  - cbn [app]. apply IH. intros c r Hin. apply (H c r). now right.
Qed.

Lemma lines_of_effects (evs : list event) : lines_of (map Effect evs) = [].
Proof. induction evs as [|ev evs IH]; [reflexivity | exact IH]. Qed.

Section DriverRun.

Variable getenv : string -> option string.
Variable ast_parse : string -> outcome AST.
Variable ChatCompletion_create : option string -> request -> outcome response.

Lemma main_run (bugs : list BugReport) (p : process) (t0 : list output) :
  static_outcome (ast_parse buggy_code) = Returns bugs ->
  Forall (fun bug => printable (line_number bug)) bugs ->
  exists r1 r2 r3 r4 m1 m2 m3 m4 p',
    main getenv ast_parse ChatCompletion_create p t0
    = (Returns tt, p',
       (t0
        ++ [Line (newline ++ "=== Code Completion ===")]
        ++ Effect (Call (Some (default "your-api-key-here"
                                 (getenv "OPENAI_API_KEY"))) r1)
           :: map Effect m1
        ++ [Line (newline ++ "=== Bug Detection ===")]
        ++ Effect (Call (Some (default "your-api-key-here"
                                 (getenv "OPENAI_API_KEY"))) r2)
           :: map Effect m2
        ++ map Line (map bug_line_shown bugs)
        ++ [Line (newline ++ "=== Code Refactoring ===")]
        ++ Effect (Call (Some (default "your-api-key-here"
                                 (getenv "OPENAI_API_KEY"))) r3)
           :: map Effect m3
        ++ [Line "Refactored code:";
            Line (answer_or _extract_code messy_code
                    (ChatCompletion_create
                       (Some (default "your-api-key-here"
                                (getenv "OPENAI_API_KEY"))) r3));
            Line (newline ++ "=== Code Explanation ===")]
        ++ Effect (Call (Some (default "your-api-key-here"
                                 (getenv "OPENAI_API_KEY"))) r4)
           :: map Effect m4
        ++ [Line (answer_or (fun content => content) ""
                    (ChatCompletion_create
                       (Some (default "your-api-key-here"
                                (getenv "OPENAI_API_KEY"))) r4))])%list)
    /\ openai_api_key p'
       = Some (default "your-api-key-here" (getenv "OPENAI_API_KEY"))
    /\ map req_model [r1; r2; r3; r4] = ["gpt-4"; "gpt-4"; "gpt-4"; "gpt-4"]
    /\ map system_of [r1; r2; r3; r4]
       = ["You are an expert programming assistant.";
          "You are a security and code quality expert.";
          "You are a code refactoring expert.";
          "You are a patient coding instructor."]
    /\ no_request m1 /\ no_request m2 /\ no_request m3 /\ no_request m4.
Proof.
  intros Hstatic Hprintable.
  set (key := default "your-api-key-here" (getenv "OPENAI_API_KEY")).
  unfold main. fold key. cbv zeta.
  unfold script_bind at 1, construct, __init__.
  cbv beta iota zeta.
  set (a := {| api_key := key; model := default "gpt-4" None |}).
  set (p1 := {| openai_api_key := Some key; effects := effects p |}).
  unfold script_bind at 1, say at 1.
  unfold script_bind at 1.
  destruct (complete_code_answers ChatCompletion_create
              "def calculate_fibonacci(n):" None a p1 printable_3)
    as (r1 & m1 & Hrun1 & Hmodel1 & Hsys1 & Hm1).
  rewrite answer_or_const in Hrun1.
  rewrite (invoke_called _ _ _ _ _ _ _ _ Hrun1).
  cbn [enumerate for_each]. unfold script_bind at 1, script_ret.
  unfold script_bind at 1, say at 1. unfold script_bind at 1.
  set (p2 := called p1 r1 m1).
  destruct (analyze_code_sends ast_parse ChatCompletion_create buggy_code
              bugs a p2 Hstatic)
    as (r2 & m2 & Hrun2 & Hmodel2 & Hsys2 & Hm2).
  rewrite (invoke_called _ _ _ _ _ _ _ _ Hrun2).
  unfold script_bind at 1. rewrite (for_each_bug_lines _ _ _ Hprintable).
  unfold script_bind at 1, say at 1. unfold script_bind at 1.
  set (p3 := called p2 r2 m2).
  destruct (refactor_answers ChatCompletion_create messy_code None a p3)
    as (r3 & m3 & Hrun3 & Hmodel3 & Hsys3 & Hm3).
  rewrite (invoke_called _ _ _ _ _ _ _ _ Hrun3).
  unfold script_bind at 1, say at 1.
  unfold script_bind at 1, say at 1.
  unfold script_bind at 1, say at 1. unfold script_bind at 1.
  set (p4 := called p3 r3 m3).
  destruct (explain_code_answers ChatCompletion_create complex_code a p4)
    as (r4 & m4 & Hrun4 & Hmodel4 & Hsys4 & Hm4).
  rewrite (invoke_called _ _ _ _ _ _ _ _ Hrun4).
  unfold say.
  exists r1, r2, r3, r4, m1, m2, m3, m4, (called p4 r4 m4).
  split.
  { f_equal. cbn [called openai_api_key p1 p2 p3 p4].
    repeat (rewrite <- ?app_assoc; cbn [app]). reflexivity. }
  split; [reflexivity|].
  split; [cbn [map]; now rewrite Hmodel1, Hmodel2, Hmodel3, Hmodel4|].
  split; [cbn [map]; now rewrite Hsys1, Hsys2, Hsys3, Hsys4|].
  auto.
Qed.

End DriverRun.

Lemma lines_of_line (text : string) (t : list output) :
  lines_of (Line text :: t) = text :: lines_of t.
Proof. reflexivity. Qed.

Lemma lines_of_effect (ev : event) (t : list output) :
  lines_of (Effect ev :: t) = lines_of t.
Proof. reflexivity. Qed.

Lemma requests_of_line (text : string) (t : list output) :
  requests_of (Line text :: t) = requests_of t.
Proof. reflexivity. Qed.

Lemma requests_of_call (credential : option string) (req : request)
    (t : list output) :
  requests_of (Effect (Call credential req) :: t)
  = (credential, req) :: requests_of t.
Proof. reflexivity. Qed.

Lemma static_outcome_returns (o : outcome AST) :
  (forall cls text, o <> Raises (OtherException cls text)) ->
  exists bugs, static_outcome o = Returns bugs.
Proof.
  intros H. destruct o as [tree | [lineno msg | cls text]];
    cbn [static_outcome]; eauto.
  now destruct (H cls text).
Qed.

Lemma demo_lines_printable : lines_printable (Demo.parse buggy_code).
Proof.
  replace (Demo.parse buggy_code) with (Returns Demo.buggy_tree)
    by (vm_compute; reflexivity).
  unfold lines_printable. intros lineno ty nm body H.
  assert (lineno = 7%Z) as ->.
  { cbn in H. repeat (destruct H as [H|H]; [congruence|]). destruct H. }
  unfold printable. vm_compute. reflexivity.
Qed.

(** X13: the driver sends exactly four requests, in the order completion,
    bug detection, refactoring, explanation, each with the model gpt-4 and
    under the credential it read from the environment (the placeholder
    when the variable is unset), which is also what it leaves as the
    process-wide credential.  This holds whenever the parser returns a tree
    for the demonstration snippet or rejects it with [SyntaxError], with
    line numbers the driver can write, and whatever the service answers. *)
Theorem main_requests
    (getenv : string -> option string)
    (ast_parse : string -> outcome AST)
    (ChatCompletion_create : option string -> request -> outcome response)
    (p : process) :
  (forall cls text, ast_parse buggy_code <> Raises (OtherException cls text)) ->
  lines_printable (ast_parse buggy_code) ->
  exists t p' r1 r2 r3 r4,
    main getenv ast_parse ChatCompletion_create p [] = (Returns tt, p', t)
    /\ requests_of t
       = map (fun r => (Some (default "your-api-key-here"
                                (getenv "OPENAI_API_KEY")), r))
             [r1; r2; r3; r4]
    /\ map req_model [r1; r2; r3; r4] = ["gpt-4"; "gpt-4"; "gpt-4"; "gpt-4"]
    /\ map system_of [r1; r2; r3; r4]
       = ["You are an expert programming assistant.";
          "You are a security and code quality expert.";
          "You are a code refactoring expert.";
          "You are a patient coding instructor."]
    /\ openai_api_key p'
       = Some (default "your-api-key-here" (getenv "OPENAI_API_KEY")).
Proof.
  intros Hparser Hlines.
  destruct (static_outcome_returns _ Hparser) as [bugs Hbugs].
  pose proof (static_outcome_printable _ _ Hlines Hbugs) as Hprintable.
  destruct (main_run getenv ast_parse ChatCompletion_create bugs p []
              Hbugs Hprintable)
    as (r1 & r2 & r3 & r4 & m1 & m2 & m3 & m4
        & p' & Hrun & Hkey & Hmodels & Hsystems & H1 & H2 & H3 & H4).
  eexists; exists p', r1, r2, r3, r4.
  split; [exact Hrun|]. split; [|auto].
  cbn [app].
  repeat first
    [ rewrite requests_of_line
    | rewrite requests_of_call
    | rewrite requests_of_app
    | rewrite requests_of_lines
    | rewrite requests_of_effects by assumption ].
  reflexivity.
Qed.

Lemma main_requests_witness :
  exists t p' r1 r2 r3 r4,
    main Demo.no_environment Demo.parse Fixture.service_down
      Fixture.fresh_process [] = (Returns tt, p', t)
    /\ requests_of t
       = [(Some "your-api-key-here", r1); (Some "your-api-key-here", r2);
          (Some "your-api-key-here", r3); (Some "your-api-key-here", r4)].
Proof.
  destruct (main_requests Demo.no_environment Demo.parse Fixture.service_down
              Fixture.fresh_process)
    as (t & p' & r1 & r2 & r3 & r4 & Hrun & Hreqs & _).
  - intros cls text. vm_compute. discriminate.
  - exact demo_lines_printable.
  - exists t, p', r1, r2, r3, r4. split; [exact Hrun | exact Hreqs].
Defined.

(** X14: what the driver prints itself: the four section headers, never a
    suggestion, one line [Line N: [SEVERITY] description] per finding of
    [analyze_code] in the order of the findings, then under its caption
    what [refactor] made of the answer to the third request (the code
    extracted from its first choice, or the demonstration code unchanged
    when the request failed or brought no choice), and what [explain_code]
    made of the answer to the fourth (its first choice, or the empty
    text). *)
Theorem main_lines
    (getenv : string -> option string)
    (ast_parse : string -> outcome AST)
    (ChatCompletion_create : option string -> request -> outcome response)
    (p : process) (bugs : list BugReport) :
  static_outcome (ast_parse buggy_code) = Returns bugs ->
  lines_printable (ast_parse buggy_code) ->
  exists t p' r1 r2 r3 r4,
    main getenv ast_parse ChatCompletion_create p [] = (Returns tt, p', t)
    /\ requests_of t
       = map (fun r => (Some (default "your-api-key-here"
                                (getenv "OPENAI_API_KEY")), r))
             [r1; r2; r3; r4]
    /\ system_of r3 = "You are a code refactoring expert."
    /\ system_of r4 = "You are a patient coding instructor."
    /\ lines_of t
       = ([(newline ++ "=== Code Completion ===")%string;
           (newline ++ "=== Bug Detection ===")%string]
          ++ map bug_line_shown bugs
          ++ [(newline ++ "=== Code Refactoring ===")%string;
              "Refactored code:";
              answer_or _extract_code messy_code
                (ChatCompletion_create
                   (Some (default "your-api-key-here"
                            (getenv "OPENAI_API_KEY"))) r3);
              (newline ++ "=== Code Explanation ===")%string;
              answer_or (fun content => content) ""
                (ChatCompletion_create
                   (Some (default "your-api-key-here"
                            (getenv "OPENAI_API_KEY"))) r4)])%list.
Proof.
  intros Hbugs Hlines.
  pose proof (static_outcome_printable _ _ Hlines Hbugs) as Hprintable.
  destruct (main_run getenv ast_parse ChatCompletion_create bugs p []
              Hbugs Hprintable)
    as (r1 & r2 & r3 & r4 & m1 & m2 & m3 & m4
        & p' & Hrun & _ & _ & Hsystems & H1 & H2 & H3 & H4).
  eexists; exists p', r1, r2, r3, r4.
  split; [exact Hrun|].
  injection Hsystems as _ _ Hs3 Hs4.
  split; [|split; [exact Hs3|split; [exact Hs4|]]]; cbn [app].
  - repeat first
      [ rewrite requests_of_line
      | rewrite requests_of_call
      | rewrite requests_of_app
      | rewrite requests_of_lines
      | rewrite requests_of_effects by assumption ].
    reflexivity.
  - repeat first
      [ rewrite lines_of_line
      | rewrite lines_of_effect
      | rewrite lines_of_app
      | rewrite lines_of_lines
      | rewrite lines_of_effects ].
    reflexivity.
Qed.

Lemma main_lines_witness :
  exists t p',
    main Demo.no_environment Demo.parse
      (fun _ _ => Returns [Fixture.python_answer]) Fixture.fresh_process []
    = (Returns tt, p', t)
    /\ lines_of t
       = [(newline ++ "=== Code Completion ===")%string;
          (newline ++ "=== Bug Detection ===")%string;
          "Line 7: [MEDIUM] Bare except clause - specify exception type";
          (newline ++ "=== Code Refactoring ===")%string;
          "Refactored code:"; "x = 1";
          (newline ++ "=== Code Explanation ===")%string;
          Fixture.python_answer].
Proof.
  destruct (main_lines Demo.no_environment Demo.parse
              (fun _ _ => Returns [Fixture.python_answer])
              Fixture.fresh_process [bare_except_report 7])
    as (t & p' & r1 & r2 & r3 & r4 & Hrun & _ & _ & _ & Hlines).
  - reflexivity.
  - exact demo_lines_printable.
  - exists t, p'. split; [exact Hrun | exact Hlines].
Defined.

Example main_offline :
  lines_of (snd (main Demo.no_environment Demo.parse Fixture.service_down
                   Fixture.fresh_process []))
  = [newline ++ "=== Code Completion ===";
     newline ++ "=== Bug Detection ===";
     "Line 7: [MEDIUM] Bare except clause - specify exception type";
     newline ++ "=== Code Refactoring ===";
     "Refactored code:"; messy_code;
     newline ++ "=== Code Explanation ===";
     ""].
Proof. vm_compute. reflexivity. Qed.

(** ** Several assistants in one process *)

Lemma answers_one_under {A : Type}
    (ChatCompletion_create : option string -> request -> outcome response)
    (system : string) (f : string -> A) (fallback : A)
    (r : outcome A * AICodeAssistant * process) (self : AICodeAssistant)
    (p : process) :
  answers_one ChatCompletion_create system f fallback r self p ->
  one_request_under (openai_api_key p) (model self) (effects p) r.
Proof.
  intros (req & more & -> & Hmodel & _ & Hmore).
  exists req, more. split; [|now split].
  unfold process_after, called. cbn [snd effects].
  now rewrite <- app_assoc.
Qed.

(** X15: the credential of the assistant constructed last is the one in
    force for all of them.  After a second assistant has been constructed,
    every request of the first one still carries the first one's model, but
    goes out under the second one's credential, while the first object
    keeps its own [api_key] field.  ([complete_code] sends its request when
    the number of suggestions is one it can write into its prompt.) *)
Theorem last_constructed_credential
    (ChatCompletion_create : option string -> request -> outcome response)
    (key1 key2 : string) (model1 model2 : option string) (p : process)
    (code_context : string) (max_suggestions : option Z)
    (code : string) (style : option string) :
  let first := __init__ key1 model1 p in
  let second := __init__ key2 model2 (snd first) in
  api_key (fst first) = key1
  /\ (printable (default 3%Z max_suggestions) ->
      one_request_under (Some key2) (default "gpt-4" model1) (effects p)
        (complete_code ChatCompletion_create code_context max_suggestions
           (fst first) (snd second)))
  /\ one_request_under (Some key2) (default "gpt-4" model1) (effects p)
       (refactor ChatCompletion_create code style (fst first) (snd second))
  /\ one_request_under (Some key2) (default "gpt-4" model1) (effects p)
       (generate_documentation ChatCompletion_create code (fst first)
          (snd second))
  /\ one_request_under (Some key2) (default "gpt-4" model1) (effects p)
       (explain_code ChatCompletion_create code (fst first) (snd second)).
Proof.
  intros first second. split; [reflexivity|].
  split; [intros Hcount|split; [|split]];
    eapply (answers_one_under _ _ _ _ _ (fst first) (snd second)).
  - now apply complete_code_answers.
  - apply refactor_answers.
  - apply generate_documentation_answers.
  - apply explain_code_answers.
Qed.

Lemma last_constructed_credential_witness :
  one_request_under (Some "key-B") "gpt-4" []
    (complete_code Fixture.service_up "def f(n):" None
       (fst (__init__ "key-A" None Fixture.fresh_process))
       (snd (__init__ "key-B" None
               (snd (__init__ "key-A" None Fixture.fresh_process))))).
Proof.
  destruct (last_constructed_credential Fixture.service_up "key-A" "key-B"
              None None Fixture.fresh_process "def f(n):" None "" None)
    as (_ & H & _).
  apply H. unfold printable. vm_compute. reflexivity.
Defined.

(** ** The scan of [re.findall] on empty matches *)

(** [re.findall(r'(.*?)', 'ab', re.DOTALL)] is [['', 'a', '', 'b', '']]:
    after an empty match the next one must advance. *)
Example findall_lazy_group :
  findall (Group AnyLazy) "ab" = [""; "a"; ""; "b"; ""].
Proof. reflexivity. Qed.

Example findall_two_blocks :
  findall code_pattern
    ("```" ++ newline ++ "a" ++ newline ++ "```" ++ newline
     ++ "```python" ++ newline ++ "b" ++ newline ++ "```")
  = ["a"; "b"].
Proof. reflexivity. Qed.
